(** * The Accelerate dispatch wrappers of numpy, as a shallow embedding

    Source files:
    - [numpy/core/src/common/lapack/accelerate_wrapper.c]: 54 C functions
      [accelerate_<routine>], each of which tests
      the availability of [macos 13.3] and calls either the entry point
      [<routine>_] or the entry point [<routine>$LEGACY] with its own
      parameters.
    - [numpy/core/src/common/lapack/accelerate_legacy.h]: the macros that
      give the legacy declarations their [$LEGACY] names.

    Every parameter of every wrapper is a pointer, so an argument is an
    address.  The BLAS/LAPACK entry points live in the Accelerate framework
    and are not part of the sources: they are a parameter ([backend]) of the
    development, a function on the caller's memory.  A call to a wrapper
    runs in a [world] that holds the host version, the memory and the list
    of the events that happened so far. *)

From Stdlib Require Import ZArith NArith List String Ascii Bool Lia.
From stdpp Require Import base gmap strings.
Import ListNotations.

Local Open Scope Z_scope.
Local Open Scope string_scope.

(** ** Data model *)

Module Model.

(** A C pointer: the address it holds. *)
Definition ptr : Type := Z.

(** What an entry point hands back in the return register.  The wrappers do
    no arithmetic, so a floating-point number is kept as its IEEE bit
    pattern. *)
Inductive value : Type :=
| Vint (i : Z)
| Vsingle (bits : Z)
| Vdouble (bits : Z).

(** Byte-addressed memory: the buffers of the caller. *)
Abbreviation memory := (gmap Z Z).

(** An operating system version, [major.minor.patch]. *)
Record version : Type := Version { major : N; minor : N; patch : N }.

(** [version_leb a b]: [a] is at most [b], field by field from the left. *)
Definition version_leb (a b : version) : bool :=
  match (major a ?= major b)%N with
  | Lt => true
  | Gt => false
  | Eq =>
      match (minor a ?= minor b)%N with
      | Lt => true
      | Gt => false
      | Eq => (patch a <=? patch b)%N
      end
  end.

(** What can be observed of a call from outside: an availability query with
    its answer, and a call of a linked symbol with its argument vector. *)
Inductive event : Type :=
| Eavail (required : version) (answer : bool)
| Ecall (symbol : string) (args : list ptr).

Record world : Type := World {
  host_os : version;
  mem : memory;
  trace : list event
}.

(** State passing over the world. *)
Definition M (A : Type) : Type := world -> A * world.

Definition unit_ {A : Type} (a : A) : M A := fun w => (a, w).

Definition bind {A B : Type} (c : M A) (k : A -> M B) : M B :=
  fun w => let (a, w') := c w in k a w'.

(** The events of kind [Ecall] in a trace, in order. *)
Fixpoint calls (t : list event) : list (string * list ptr) :=
  match t with
  | [] => []
  | Ecall s a :: t' => (s, a) :: calls t'
  | Eavail _ _ :: t' => calls t'
  end.

(** The availability queries of a trace, in order. *)
Fixpoint queries (t : list event) : list (version * bool) :=
  match t with
  | [] => []
  | Eavail v b :: t' => (v, b) :: queries t'
  | Ecall _ _ :: t' => queries t'
  end.

(** How many times the symbol [s] was called in a trace. *)
Definition count_calls (s : string) (t : list event) : nat :=
  length (List.filter (fun c => String.eqb (fst c) s) (calls t)).

(** A 32-bit integer in memory, least significant byte first. *)
Definition store_int32 (p : ptr) (v : Z) (m : memory) : memory :=
  <[p + 3 := Z.land (Z.shiftr v 24) 255]>
    (<[p + 2 := Z.land (Z.shiftr v 16) 255]>
       (<[p + 1 := Z.land (Z.shiftr v 8) 255]>
          (<[p := Z.land v 255]> m))).

Definition load_int32 (p : ptr) (m : memory) : option Z :=
  match m !! p, m !! (p + 1), m !! (p + 2), m !! (p + 3) with
  | Some b0, Some b1, Some b2, Some b3 =>
      Some (Z.lor b0 (Z.lor (Z.shiftl b1 8) (Z.lor (Z.shiftl b2 16) (Z.shiftl b3 24))))
  | _, _, _, _ => None
  end.

End Model.
Export Model.

(** ** accelerate_legacy.h *)

Module Legacy.

(** [#define __TEMPLATE_FUNC(func) __CONCAT(func,$LEGACY)] *)
Definition TEMPLATE_FUNC (func : string) : string := func +:+ "$LEGACY".

(** [#define __TEMPLATE_ALIAS(sym) __asm("_" __STRING(sym))] *)
Definition TEMPLATE_ALIAS (sym : string) : string := "_" +:+ sym.

End Legacy.
Export Legacy.

(** ** C declarations of accelerate_wrapper.c *)

Module Decl.

Inductive ctype : Type :=
| Tvoid
| Tchar
| Tfortran_int
| Tfloat
| Tdouble
| Tf2c_complex
| Tf2c_doublecomplex
| Tfortran_doublecomplex.

(** The two ways in which the file declares a pointer parameter:
    [T *x] and [T x[]]. *)
Inductive declarator : Type := Dstar | Darray.

Record param : Type := Param {
  p_type : ctype;
  p_decl : declarator;
  p_name : string
}.

Record prototype : Type := Prototype {
  ret_type : ctype;
  fn_name : string;
  fn_params : list param
}.

Definition ctype_eqb (a b : ctype) : bool :=
  match a, b with
  | Tvoid, Tvoid | Tchar, Tchar | Tfortran_int, Tfortran_int
  | Tfloat, Tfloat | Tdouble, Tdouble | Tf2c_complex, Tf2c_complex
  | Tf2c_doublecomplex, Tf2c_doublecomplex
  | Tfortran_doublecomplex, Tfortran_doublecomplex => true
  | _, _ => false
  end.

End Decl.
Export Decl.
(** ** The wrapped routines

    One constructor per function of accelerate_wrapper.c, in the order of
    the file. *)

Inductive routine : Type :=
| sgeev | dgeev | cgeev | zgeev | ssyevd | dsyevd | cheevd | zheevd
| sgelsd | dgelsd | cgelsd | zgelsd | dgeqrf | zgeqrf | dorgqr | zungqr
| sgesv | dgesv | cgesv | zgesv | sgetrf | dgetrf | cgetrf | zgetrf
| spotrf | dpotrf | cpotrf | zpotrf | sgesdd | dgesdd | cgesdd | zgesdd
| spotrs | dpotrs | cpotrs | zpotrs | spotri | dpotri | cpotri | zpotri
| scopy | dcopy | ccopy | zcopy | sdot | ddot | cdotu | zdotu
| cdotc | zdotc | sgemm | dgemm | cgemm | zgemm.

Definition all_routines : list routine :=
  [sgeev; dgeev; cgeev; zgeev; ssyevd; dsyevd; cheevd; zheevd; sgelsd; dgelsd;
   cgelsd; zgelsd; dgeqrf; zgeqrf; dorgqr; zungqr; sgesv; dgesv; cgesv; zgesv;
   sgetrf; dgetrf; cgetrf; zgetrf; spotrf; dpotrf; cpotrf; zpotrf; sgesdd;
   dgesdd; cgesdd; zgesdd; spotrs; dpotrs; cpotrs; zpotrs; spotri; dpotri;
   cpotri; zpotri; scopy; dcopy; ccopy; zcopy; sdot; ddot; cdotu; zdotu;
   cdotc; zdotc; sgemm; dgemm; cgemm; zgemm].

(** The declaration of each wrapper: return type, name and parameters. *)
Definition prototype_of (r : routine) : prototype :=
  match r with
  | sgeev =>
      Prototype Tvoid "accelerate_sgeev"
        [Param Tchar Dstar "jobvl"; Param Tchar Dstar "jobvr";
         Param Tfortran_int Dstar "n"; Param Tfloat Darray "a";
         Param Tfortran_int Dstar "lda"; Param Tfloat Darray "wr";
         Param Tfloat Darray "wi"; Param Tfloat Darray "vl";
         Param Tfortran_int Dstar "ldvl"; Param Tfloat Darray "vr";
         Param Tfortran_int Dstar "ldvr"; Param Tfloat Darray "work";
         Param Tfortran_int Darray "lwork"; Param Tfortran_int Dstar "info"]
  | dgeev =>
      Prototype Tvoid "accelerate_dgeev"
        [Param Tchar Dstar "jobvl"; Param Tchar Dstar "jobvr";
         Param Tfortran_int Dstar "n"; Param Tdouble Darray "a";
         Param Tfortran_int Dstar "lda"; Param Tdouble Darray "wr";
         Param Tdouble Darray "wi"; Param Tdouble Darray "vl";
         Param Tfortran_int Dstar "ldvl"; Param Tdouble Darray "vr";
         Param Tfortran_int Dstar "ldvr"; Param Tdouble Darray "work";
         Param Tfortran_int Darray "lwork"; Param Tfortran_int Dstar "info"]
  | cgeev =>
      Prototype Tvoid "accelerate_cgeev"
        [Param Tchar Dstar "jobvl"; Param Tchar Dstar "jobvr";
         Param Tfortran_int Dstar "n"; Param Tf2c_complex Darray "a";
         Param Tfortran_int Dstar "lda"; Param Tf2c_complex Darray "w";
         Param Tf2c_complex Darray "vl"; Param Tfortran_int Dstar "ldvl";
         Param Tf2c_complex Darray "vr"; Param Tfortran_int Dstar "ldvr";
         Param Tf2c_complex Darray "work"; Param Tfortran_int Dstar "lwork";
         Param Tfloat Darray "rwork"; Param Tfortran_int Dstar "info"]
  | zgeev =>
      Prototype Tvoid "accelerate_zgeev"
        [Param Tchar Dstar "jobvl"; Param Tchar Dstar "jobvr";
         Param Tfortran_int Dstar "n"; Param Tf2c_doublecomplex Darray "a";
         Param Tfortran_int Dstar "lda"; Param Tf2c_doublecomplex Darray "w";
         Param Tf2c_doublecomplex Darray "vl";
         Param Tfortran_int Dstar "ldvl";
         Param Tf2c_doublecomplex Darray "vr";
         Param Tfortran_int Dstar "ldvr";
         Param Tf2c_doublecomplex Darray "work";
         Param Tfortran_int Dstar "lwork"; Param Tdouble Darray "rwork";
         Param Tfortran_int Dstar "info"]
  | ssyevd =>
      Prototype Tvoid "accelerate_ssyevd"
        [Param Tchar Dstar "jobz"; Param Tchar Dstar "uplo";
         Param Tfortran_int Dstar "n"; Param Tfloat Darray "a";
         Param Tfortran_int Dstar "lda"; Param Tfloat Darray "w";
         Param Tfloat Darray "work"; Param Tfortran_int Dstar "lwork";
         Param Tfortran_int Darray "iwork"; Param Tfortran_int Dstar "liwork";
         Param Tfortran_int Dstar "info"]
  | dsyevd =>
      Prototype Tvoid "accelerate_dsyevd"
        [Param Tchar Dstar "jobz"; Param Tchar Dstar "uplo";
         Param Tfortran_int Dstar "n"; Param Tdouble Darray "a";
         Param Tfortran_int Dstar "lda"; Param Tdouble Darray "w";
         Param Tdouble Darray "work"; Param Tfortran_int Dstar "lwork";
         Param Tfortran_int Darray "iwork"; Param Tfortran_int Dstar "liwork";
         Param Tfortran_int Dstar "info"]
  | cheevd =>
      Prototype Tvoid "accelerate_cheevd"
        [Param Tchar Dstar "jobz"; Param Tchar Dstar "uplo";
         Param Tfortran_int Dstar "n"; Param Tf2c_complex Darray "a";
         Param Tfortran_int Dstar "lda"; Param Tfloat Darray "w";
         Param Tf2c_complex Darray "work"; Param Tfortran_int Dstar "lwork";
         Param Tfloat Darray "rwork"; Param Tfortran_int Dstar "lrwork";
         Param Tfortran_int Darray "iwork"; Param Tfortran_int Dstar "liwork";
         Param Tfortran_int Dstar "info"]
  | zheevd =>
      Prototype Tvoid "accelerate_zheevd"
        [Param Tchar Dstar "jobz"; Param Tchar Dstar "uplo";
         Param Tfortran_int Dstar "n"; Param Tf2c_doublecomplex Darray "a";
         Param Tfortran_int Dstar "lda"; Param Tdouble Darray "w";
         Param Tf2c_doublecomplex Darray "work";
         Param Tfortran_int Dstar "lwork"; Param Tdouble Darray "rwork";
         Param Tfortran_int Dstar "lrwork"; Param Tfortran_int Darray "iwork";
         Param Tfortran_int Dstar "liwork"; Param Tfortran_int Dstar "info"]
  | sgelsd =>
      Prototype Tvoid "accelerate_sgelsd"
        [Param Tfortran_int Dstar "m"; Param Tfortran_int Dstar "n";
         Param Tfortran_int Dstar "nrhs"; Param Tfloat Darray "a";
         Param Tfortran_int Dstar "lda"; Param Tfloat Darray "b";
         Param Tfortran_int Dstar "ldb"; Param Tfloat Darray "s";
         Param Tfloat Dstar "rcond"; Param Tfortran_int Dstar "rank";
         Param Tfloat Darray "work"; Param Tfortran_int Dstar "lwork";
         Param Tfortran_int Darray "iwork"; Param Tfortran_int Dstar "info"]
  | dgelsd =>
      Prototype Tvoid "accelerate_dgelsd"
        [Param Tfortran_int Dstar "m"; Param Tfortran_int Dstar "n";
         Param Tfortran_int Dstar "nrhs"; Param Tdouble Darray "a";
         Param Tfortran_int Dstar "lda"; Param Tdouble Darray "b";
         Param Tfortran_int Dstar "ldb"; Param Tdouble Darray "s";
         Param Tdouble Dstar "rcond"; Param Tfortran_int Dstar "rank";
         Param Tdouble Darray "work"; Param Tfortran_int Dstar "lwork";
         Param Tfortran_int Darray "iwork"; Param Tfortran_int Dstar "info"]
  | cgelsd =>
      Prototype Tvoid "accelerate_cgelsd"
        [Param Tfortran_int Dstar "m"; Param Tfortran_int Dstar "n";
         Param Tfortran_int Dstar "nrhs"; Param Tf2c_complex Darray "a";
         Param Tfortran_int Dstar "lda"; Param Tf2c_complex Darray "b";
         Param Tfortran_int Dstar "ldb"; Param Tfloat Darray "s";
         Param Tfloat Dstar "rcond"; Param Tfortran_int Dstar "rank";
         Param Tf2c_complex Darray "work"; Param Tfortran_int Dstar "lwork";
         Param Tfloat Darray "rwork"; Param Tfortran_int Darray "iwork";
         Param Tfortran_int Dstar "info"]
  | zgelsd =>
      Prototype Tvoid "accelerate_zgelsd"
        [Param Tfortran_int Dstar "m"; Param Tfortran_int Dstar "n";
         Param Tfortran_int Dstar "nrhs";
         Param Tfortran_doublecomplex Darray "a";
         Param Tfortran_int Dstar "lda";
         Param Tfortran_doublecomplex Darray "b";
         Param Tfortran_int Dstar "ldb"; Param Tdouble Darray "s";
         Param Tdouble Dstar "rcond"; Param Tfortran_int Dstar "rank";
         Param Tfortran_doublecomplex Darray "work";
         Param Tfortran_int Dstar "lwork"; Param Tdouble Darray "rwork";
         Param Tfortran_int Darray "iwork"; Param Tfortran_int Dstar "info"]
  | dgeqrf =>
      Prototype Tvoid "accelerate_dgeqrf"
        [Param Tfortran_int Dstar "m"; Param Tfortran_int Dstar "n";
         Param Tdouble Darray "a"; Param Tfortran_int Dstar "lda";
         Param Tdouble Darray "tau"; Param Tdouble Darray "work";
         Param Tfortran_int Dstar "lwork"; Param Tfortran_int Dstar "info"]
  | zgeqrf =>
      Prototype Tvoid "accelerate_zgeqrf"
        [Param Tfortran_int Dstar "m"; Param Tfortran_int Dstar "n";
         Param Tf2c_doublecomplex Darray "a"; Param Tfortran_int Dstar "lda";
         Param Tf2c_doublecomplex Darray "tau";
         Param Tf2c_doublecomplex Darray "work";
         Param Tfortran_int Dstar "lwork"; Param Tfortran_int Dstar "info"]
  | dorgqr =>
      Prototype Tvoid "accelerate_dorgqr"
        [Param Tfortran_int Dstar "m"; Param Tfortran_int Dstar "n";
         Param Tfortran_int Dstar "k"; Param Tdouble Darray "a";
         Param Tfortran_int Dstar "lda"; Param Tdouble Darray "tau";
         Param Tdouble Darray "work"; Param Tfortran_int Dstar "lwork";
         Param Tfortran_int Dstar "info"]
  | zungqr =>
      Prototype Tvoid "accelerate_zungqr"
        [Param Tfortran_int Dstar "m"; Param Tfortran_int Dstar "n";
         Param Tfortran_int Dstar "k"; Param Tf2c_doublecomplex Darray "a";
         Param Tfortran_int Dstar "lda";
         Param Tf2c_doublecomplex Darray "tau";
         Param Tf2c_doublecomplex Darray "work";
         Param Tfortran_int Dstar "lwork"; Param Tfortran_int Dstar "info"]
  | sgesv =>
      Prototype Tvoid "accelerate_sgesv"
        [Param Tfortran_int Dstar "n"; Param Tfortran_int Dstar "nrhs";
         Param Tfloat Darray "a"; Param Tfortran_int Dstar "lda";
         Param Tfortran_int Darray "ipiv"; Param Tfloat Darray "b";
         Param Tfortran_int Dstar "ldb"; Param Tfortran_int Dstar "info"]
  | dgesv =>
      Prototype Tvoid "accelerate_dgesv"
        [Param Tfortran_int Dstar "n"; Param Tfortran_int Dstar "nrhs";
         Param Tdouble Darray "a"; Param Tfortran_int Dstar "lda";
         Param Tfortran_int Darray "ipiv"; Param Tdouble Darray "b";
         Param Tfortran_int Dstar "ldb"; Param Tfortran_int Dstar "info"]
  | cgesv =>
      Prototype Tvoid "accelerate_cgesv"
        [Param Tfortran_int Dstar "n"; Param Tfortran_int Dstar "nrhs";
         Param Tf2c_complex Darray "a"; Param Tfortran_int Dstar "lda";
         Param Tfortran_int Darray "ipiv"; Param Tf2c_complex Darray "b";
         Param Tfortran_int Dstar "ldb"; Param Tfortran_int Dstar "info"]
  | zgesv =>
      Prototype Tvoid "accelerate_zgesv"
        [Param Tfortran_int Dstar "n"; Param Tfortran_int Dstar "nrhs";
         Param Tf2c_doublecomplex Darray "a"; Param Tfortran_int Dstar "lda";
         Param Tfortran_int Darray "ipiv";
         Param Tf2c_doublecomplex Darray "b"; Param Tfortran_int Dstar "ldb";
         Param Tfortran_int Dstar "info"]
  | sgetrf =>
      Prototype Tfortran_int "accelerate_sgetrf"
        [Param Tfortran_int Dstar "m"; Param Tfortran_int Dstar "n";
         Param Tfloat Darray "a"; Param Tfortran_int Dstar "lda";
         Param Tfortran_int Darray "ipiv"; Param Tfortran_int Dstar "info"]
  | dgetrf =>
      Prototype Tfortran_int "accelerate_dgetrf"
        [Param Tfortran_int Dstar "m"; Param Tfortran_int Dstar "n";
         Param Tdouble Darray "a"; Param Tfortran_int Dstar "lda";
         Param Tfortran_int Darray "ipiv"; Param Tfortran_int Dstar "info"]
  | cgetrf =>
      Prototype Tfortran_int "accelerate_cgetrf"
        [Param Tfortran_int Dstar "m"; Param Tfortran_int Dstar "n";
         Param Tf2c_complex Darray "a"; Param Tfortran_int Dstar "lda";
         Param Tfortran_int Darray "ipiv"; Param Tfortran_int Dstar "info"]
  | zgetrf =>
      Prototype Tfortran_int "accelerate_zgetrf"
        [Param Tfortran_int Dstar "m"; Param Tfortran_int Dstar "n";
         Param Tf2c_doublecomplex Darray "a"; Param Tfortran_int Dstar "lda";
         Param Tfortran_int Darray "ipiv"; Param Tfortran_int Dstar "info"]
  | spotrf =>
      Prototype Tvoid "accelerate_spotrf"
        [Param Tchar Dstar "uplo"; Param Tfortran_int Dstar "n";
         Param Tfloat Darray "a"; Param Tfortran_int Dstar "lda";
         Param Tfortran_int Dstar "info"]
  | dpotrf =>
      Prototype Tvoid "accelerate_dpotrf"
        [Param Tchar Dstar "uplo"; Param Tfortran_int Dstar "n";
         Param Tdouble Darray "a"; Param Tfortran_int Dstar "lda";
         Param Tfortran_int Dstar "info"]
  | cpotrf =>
      Prototype Tvoid "accelerate_cpotrf"
        [Param Tchar Dstar "uplo"; Param Tfortran_int Dstar "n";
         Param Tf2c_complex Darray "a"; Param Tfortran_int Dstar "lda";
         Param Tfortran_int Dstar "info"]
  | zpotrf =>
      Prototype Tvoid "accelerate_zpotrf"
        [Param Tchar Dstar "uplo"; Param Tfortran_int Dstar "n";
         Param Tf2c_doublecomplex Darray "a"; Param Tfortran_int Dstar "lda";
         Param Tfortran_int Dstar "info"]
  | sgesdd =>
      Prototype Tvoid "accelerate_sgesdd"
        [Param Tchar Dstar "jobz"; Param Tfortran_int Dstar "m";
         Param Tfortran_int Dstar "n"; Param Tfloat Darray "a";
         Param Tfortran_int Dstar "lda"; Param Tfloat Darray "s";
         Param Tfloat Darray "u"; Param Tfortran_int Dstar "ldu";
         Param Tfloat Darray "vt"; Param Tfortran_int Dstar "ldvt";
         Param Tfloat Darray "work"; Param Tfortran_int Dstar "lwork";
         Param Tfortran_int Darray "iwork"; Param Tfortran_int Dstar "info"]
  | dgesdd =>
      Prototype Tvoid "accelerate_dgesdd"
        [Param Tchar Dstar "jobz"; Param Tfortran_int Dstar "m";
         Param Tfortran_int Dstar "n"; Param Tdouble Darray "a";
         Param Tfortran_int Dstar "lda"; Param Tdouble Darray "s";
         Param Tdouble Darray "u"; Param Tfortran_int Dstar "ldu";
         Param Tdouble Darray "vt"; Param Tfortran_int Dstar "ldvt";
         Param Tdouble Darray "work"; Param Tfortran_int Dstar "lwork";
         Param Tfortran_int Darray "iwork"; Param Tfortran_int Dstar "info"]
  | cgesdd =>
      Prototype Tvoid "accelerate_cgesdd"
        [Param Tchar Dstar "jobz"; Param Tfortran_int Dstar "m";
         Param Tfortran_int Dstar "n"; Param Tf2c_complex Darray "a";
         Param Tfortran_int Dstar "lda"; Param Tfloat Darray "s";
         Param Tf2c_complex Darray "u"; Param Tfortran_int Dstar "ldu";
         Param Tf2c_complex Darray "vt"; Param Tfortran_int Dstar "ldvt";
         Param Tf2c_complex Darray "work"; Param Tfortran_int Dstar "lwork";
         Param Tfloat Darray "rwork"; Param Tfortran_int Darray "iwork";
         Param Tfortran_int Dstar "info"]
  | zgesdd =>
      Prototype Tvoid "accelerate_zgesdd"
        [Param Tchar Dstar "jobz"; Param Tfortran_int Dstar "m";
         Param Tfortran_int Dstar "n"; Param Tf2c_doublecomplex Darray "a";
         Param Tfortran_int Dstar "lda"; Param Tdouble Darray "s";
         Param Tf2c_doublecomplex Darray "u"; Param Tfortran_int Dstar "ldu";
         Param Tf2c_doublecomplex Darray "vt";
         Param Tfortran_int Dstar "ldvt";
         Param Tf2c_doublecomplex Darray "work";
         Param Tfortran_int Dstar "lwork"; Param Tdouble Darray "rwork";
         Param Tfortran_int Darray "iwork"; Param Tfortran_int Dstar "info"]
  | spotrs =>
      Prototype Tvoid "accelerate_spotrs"
        [Param Tchar Dstar "uplo"; Param Tfortran_int Dstar "n";
         Param Tfortran_int Dstar "nrhs"; Param Tfloat Darray "a";
         Param Tfortran_int Dstar "lda"; Param Tfloat Darray "b";
         Param Tfortran_int Dstar "ldb"; Param Tfortran_int Dstar "info"]
  | dpotrs =>
      Prototype Tvoid "accelerate_dpotrs"
        [Param Tchar Dstar "uplo"; Param Tfortran_int Dstar "n";
         Param Tfortran_int Dstar "nrhs"; Param Tdouble Darray "a";
         Param Tfortran_int Dstar "lda"; Param Tdouble Darray "b";
         Param Tfortran_int Dstar "ldb"; Param Tfortran_int Dstar "info"]
  | cpotrs =>
      Prototype Tvoid "accelerate_cpotrs"
        [Param Tchar Dstar "uplo"; Param Tfortran_int Dstar "n";
         Param Tfortran_int Dstar "nrhs"; Param Tf2c_complex Darray "a";
         Param Tfortran_int Dstar "lda"; Param Tf2c_complex Darray "b";
         Param Tfortran_int Dstar "ldb"; Param Tfortran_int Dstar "info"]
  | zpotrs =>
      Prototype Tvoid "accelerate_zpotrs"
        [Param Tchar Dstar "uplo"; Param Tfortran_int Dstar "n";
         Param Tfortran_int Dstar "nrhs"; Param Tf2c_doublecomplex Darray "a";
         Param Tfortran_int Dstar "lda"; Param Tf2c_doublecomplex Darray "b";
         Param Tfortran_int Dstar "ldb"; Param Tfortran_int Dstar "info"]
  | spotri =>
      Prototype Tvoid "accelerate_spotri"
        [Param Tchar Dstar "uplo"; Param Tfortran_int Dstar "n";
         Param Tfloat Darray "a"; Param Tfortran_int Dstar "lda";
         Param Tfortran_int Dstar "info"]
  | dpotri =>
      Prototype Tvoid "accelerate_dpotri"
        [Param Tchar Dstar "uplo"; Param Tfortran_int Dstar "n";
         Param Tdouble Darray "a"; Param Tfortran_int Dstar "lda";
         Param Tfortran_int Dstar "info"]
  | cpotri =>
      Prototype Tvoid "accelerate_cpotri"
        [Param Tchar Dstar "uplo"; Param Tfortran_int Dstar "n";
         Param Tf2c_complex Darray "a"; Param Tfortran_int Dstar "lda";
         Param Tfortran_int Dstar "info"]
  | zpotri =>
      Prototype Tvoid "accelerate_zpotri"
        [Param Tchar Dstar "uplo"; Param Tfortran_int Dstar "n";
         Param Tf2c_doublecomplex Darray "a"; Param Tfortran_int Dstar "lda";
         Param Tfortran_int Dstar "info"]
  | scopy =>
      Prototype Tfortran_int "accelerate_scopy"
        [Param Tfortran_int Dstar "n"; Param Tfloat Dstar "sx";
         Param Tfortran_int Dstar "incx"; Param Tfloat Dstar "sy";
         Param Tfortran_int Dstar "incy"]
  | dcopy =>
      Prototype Tfortran_int "accelerate_dcopy"
        [Param Tfortran_int Dstar "n"; Param Tdouble Dstar "sx";
         Param Tfortran_int Dstar "incx"; Param Tdouble Dstar "sy";
         Param Tfortran_int Dstar "incy"]
  | ccopy =>
      Prototype Tfortran_int "accelerate_ccopy"
        [Param Tfortran_int Dstar "n"; Param Tf2c_complex Dstar "sx";
         Param Tfortran_int Dstar "incx"; Param Tf2c_complex Dstar "sy";
         Param Tfortran_int Dstar "incy"]
  | zcopy =>
      Prototype Tfortran_int "accelerate_zcopy"
        [Param Tfortran_int Dstar "n"; Param Tf2c_doublecomplex Dstar "sx";
         Param Tfortran_int Dstar "incx"; Param Tf2c_doublecomplex Dstar "sy";
         Param Tfortran_int Dstar "incy"]
  | sdot =>
      Prototype Tfloat "accelerate_sdot"
        [Param Tfortran_int Dstar "n"; Param Tfloat Dstar "sx";
         Param Tfortran_int Dstar "incx"; Param Tfloat Dstar "sy";
         Param Tfortran_int Dstar "incy"]
  | ddot =>
      Prototype Tdouble "accelerate_ddot"
        [Param Tfortran_int Dstar "n"; Param Tdouble Dstar "sx";
         Param Tfortran_int Dstar "incx"; Param Tdouble Dstar "sy";
         Param Tfortran_int Dstar "incy"]
  | cdotu =>
      Prototype Tvoid "accelerate_cdotu"
        [Param Tf2c_complex Dstar "ret"; Param Tfortran_int Dstar "n";
         Param Tf2c_complex Dstar "sx"; Param Tfortran_int Dstar "incx";
         Param Tf2c_complex Dstar "sy"; Param Tfortran_int Dstar "incy"]
  | zdotu =>
      Prototype Tvoid "accelerate_zdotu"
        [Param Tf2c_doublecomplex Dstar "ret"; Param Tfortran_int Dstar "n";
         Param Tf2c_doublecomplex Dstar "sx"; Param Tfortran_int Dstar "incx";
         Param Tf2c_doublecomplex Dstar "sy"; Param Tfortran_int Dstar "incy"]
  | cdotc =>
      Prototype Tvoid "accelerate_cdotc"
        [Param Tf2c_complex Dstar "ret"; Param Tfortran_int Dstar "n";
         Param Tf2c_complex Dstar "sx"; Param Tfortran_int Dstar "incx";
         Param Tf2c_complex Dstar "sy"; Param Tfortran_int Dstar "incy"]
  | zdotc =>
      Prototype Tvoid "accelerate_zdotc"
        [Param Tf2c_doublecomplex Dstar "ret"; Param Tfortran_int Dstar "n";
         Param Tf2c_doublecomplex Dstar "sx"; Param Tfortran_int Dstar "incx";
         Param Tf2c_doublecomplex Dstar "sy"; Param Tfortran_int Dstar "incy"]
  | sgemm =>
      Prototype Tvoid "accelerate_sgemm"
        [Param Tchar Dstar "transa"; Param Tchar Dstar "transb";
         Param Tfortran_int Dstar "m"; Param Tfortran_int Dstar "n";
         Param Tfortran_int Dstar "k"; Param Tfloat Dstar "alpha";
         Param Tfloat Dstar "a"; Param Tfortran_int Dstar "lda";
         Param Tfloat Dstar "b"; Param Tfortran_int Dstar "ldb";
         Param Tfloat Dstar "beta"; Param Tfloat Dstar "c";
         Param Tfortran_int Dstar "ldc"]
  | dgemm =>
      Prototype Tvoid "accelerate_dgemm"
        [Param Tchar Dstar "transa"; Param Tchar Dstar "transb";
         Param Tfortran_int Dstar "m"; Param Tfortran_int Dstar "n";
         Param Tfortran_int Dstar "k"; Param Tdouble Dstar "alpha";
         Param Tdouble Dstar "a"; Param Tfortran_int Dstar "lda";
         Param Tdouble Dstar "b"; Param Tfortran_int Dstar "ldb";
         Param Tdouble Dstar "beta"; Param Tdouble Dstar "c";
         Param Tfortran_int Dstar "ldc"]
  | cgemm =>
      Prototype Tvoid "accelerate_cgemm"
        [Param Tchar Dstar "transa"; Param Tchar Dstar "transb";
         Param Tfortran_int Dstar "m"; Param Tfortran_int Dstar "n";
         Param Tfortran_int Dstar "k"; Param Tf2c_complex Dstar "alpha";
         Param Tf2c_complex Dstar "a"; Param Tfortran_int Dstar "lda";
         Param Tf2c_complex Dstar "b"; Param Tfortran_int Dstar "ldb";
         Param Tf2c_complex Dstar "beta"; Param Tf2c_complex Dstar "c";
         Param Tfortran_int Dstar "ldc"]
  | zgemm =>
      Prototype Tvoid "accelerate_zgemm"
        [Param Tchar Dstar "transa"; Param Tchar Dstar "transb";
         Param Tfortran_int Dstar "m"; Param Tfortran_int Dstar "n";
         Param Tfortran_int Dstar "k"; Param Tf2c_doublecomplex Dstar "alpha";
         Param Tf2c_doublecomplex Dstar "a"; Param Tfortran_int Dstar "lda";
         Param Tf2c_doublecomplex Dstar "b"; Param Tfortran_int Dstar "ldb";
         Param Tf2c_doublecomplex Dstar "beta";
         Param Tf2c_doublecomplex Dstar "c"; Param Tfortran_int Dstar "ldc"]
  end.

Definition arity (r : routine) : nat := length (fn_params (prototype_of r)).

(** The BLAS/LAPACK name of a routine: the name of its wrapper without the
    prefix [accelerate_]. *)
Definition routine_name (r : routine) : string :=
  let s := fn_name (prototype_of r) in
  String.substring 11 (String.length s - 11) s.

(** The two link names behind a wrapper. *)
Definition modern_symbol (r : routine) : string := routine_name r +:+ "_".
Definition legacy_symbol (r : routine) : string := TEMPLATE_FUNC (routine_name r).

(** ** The wrappers *)

(** The version named by [macos 13.3] in an availability query. *)
Definition macos (maj min : N) : version := Version maj min 0.

(** The linked library: what the entry point behind a symbol does to the
    memory when called with an argument vector, and what it returns
    ([None] for an entry point without a return value). *)
Definition library : Type := string -> list ptr -> memory -> memory * option value.

(** Modelled from the spec: [__builtin_available] is a builtin of the
    compiler and not part of the sources.  The spec gives its meaning as
    the capability predicate "host OS version >= threshold version V";
    the host is a macOS host, the only platform named in the query (the
    trailing [*] of the query concerns other platforms).  The query and its
    answer are entered in the trace. *)
Definition builtin_available (required : version) : M bool :=
  fun w =>
    let answer := version_leb required (host_os w) in
    (answer,
     {| host_os := host_os w; mem := mem w;
        trace := trace w ++ [Eavail required answer] |}).

Section Wrappers.

Variable backend : library.

(** A call [sym(args)] of an entry point of the library. *)
Definition call (sym : string) (args : list ptr) : M (option value) :=
  fun w =>
    let (m', v) := backend sym args (mem w) in
    (v, {| host_os := host_os w; mem := m'; trace := trace w ++ [Ecall sym args] |}).

(** How a C statement ends: it runs to its end, or it leaves the function
    through [return e;] (or [return;]). *)
Inductive outcome : Type :=
| Onormal
| Oreturn (v : option value).

Definition stmt : Type := M outcome.

(** The expression statement [e;]: the value of [e] is dropped. *)
Definition Sexpr {A : Type} (e : M A) : stmt :=
  bind e (fun _ => unit_ Onormal).

(** [if (c) { s1 } else { s2 }] *)
Definition Sif (c : M bool) (s1 s2 : stmt) : stmt :=
  bind c (fun b => if b then s1 else s2).

(** A function whose body is [s].  The caller receives the operand of the
    [return] that ended the body; when the closing brace is reached there
    is no value for the caller ([None]). *)
Definition function_body (s : stmt) : M (option value) :=
  bind s (fun o =>
    unit_ match o with
          | Onormal => None
          | Oreturn v => v
          end).

(** [void accelerate_sgeev(...)], 14 parameters. *)
Definition accelerate_sgeev
  (jobvl jobvr n a lda wr wi vl ldvl vr ldvr work lwork info : ptr)
  : M (option value) :=
  function_body
    (Sif (builtin_available (macos 13 3))
       (Sexpr (call "sgeev_"
          [jobvl; jobvr; n; a; lda; wr; wi; vl; ldvl; vr; ldvr; work; lwork;
           info]))
       (Sexpr (call "sgeev$LEGACY"
          [jobvl; jobvr; n; a; lda; wr; wi; vl; ldvl; vr; ldvr; work; lwork;
           info]))).

(** [void accelerate_dgeev(...)], 14 parameters. *)
Definition accelerate_dgeev
  (jobvl jobvr n a lda wr wi vl ldvl vr ldvr work lwork info : ptr)
  : M (option value) :=
  function_body
    (Sif (builtin_available (macos 13 3))
       (Sexpr (call "dgeev_"
          [jobvl; jobvr; n; a; lda; wr; wi; vl; ldvl; vr; ldvr; work; lwork;
           info]))
       (Sexpr (call "dgeev$LEGACY"
          [jobvl; jobvr; n; a; lda; wr; wi; vl; ldvl; vr; ldvr; work; lwork;
           info]))).

(** [void accelerate_cgeev(...)], 14 parameters. *)
Definition accelerate_cgeev
  (jobvl jobvr n a lda w vl ldvl vr ldvr work lwork rwork info : ptr)
  : M (option value) :=
  function_body
    (Sif (builtin_available (macos 13 3))
       (Sexpr (call "cgeev_"
          [jobvl; jobvr; n; a; lda; w; vl; ldvl; vr; ldvr; work; lwork; rwork;
           info]))
       (Sexpr (call "cgeev$LEGACY"
          [jobvl; jobvr; n; a; lda; w; vl; ldvl; vr; ldvr; work; lwork; rwork;
           info]))).

(** [void accelerate_zgeev(...)], 14 parameters. *)
Definition accelerate_zgeev
  (jobvl jobvr n a lda w vl ldvl vr ldvr work lwork rwork info : ptr)
  : M (option value) :=
  function_body
    (Sif (builtin_available (macos 13 3))
       (Sexpr (call "zgeev_"
          [jobvl; jobvr; n; a; lda; w; vl; ldvl; vr; ldvr; work; lwork; rwork;
           info]))
       (Sexpr (call "zgeev$LEGACY"
          [jobvl; jobvr; n; a; lda; w; vl; ldvl; vr; ldvr; work; lwork; rwork;
           info]))).

(** [void accelerate_ssyevd(...)], 11 parameters. *)
Definition accelerate_ssyevd
  (jobz uplo n a lda w work lwork iwork liwork info : ptr)
  : M (option value) :=
  function_body
    (Sif (builtin_available (macos 13 3))
       (Sexpr (call "ssyevd_"
          [jobz; uplo; n; a; lda; w; work; lwork; iwork; liwork; info]))
       (Sexpr (call "ssyevd$LEGACY"
          [jobz; uplo; n; a; lda; w; work; lwork; iwork; liwork; info]))).

(** [void accelerate_dsyevd(...)], 11 parameters. *)
Definition accelerate_dsyevd
  (jobz uplo n a lda w work lwork iwork liwork info : ptr)
  : M (option value) :=
  function_body
    (Sif (builtin_available (macos 13 3))
       (Sexpr (call "dsyevd_"
          [jobz; uplo; n; a; lda; w; work; lwork; iwork; liwork; info]))
       (Sexpr (call "dsyevd$LEGACY"
          [jobz; uplo; n; a; lda; w; work; lwork; iwork; liwork; info]))).

(** [void accelerate_cheevd(...)], 13 parameters. *)
Definition accelerate_cheevd
  (jobz uplo n a lda w work lwork rwork lrwork iwork liwork info : ptr)
  : M (option value) :=
  function_body
    (Sif (builtin_available (macos 13 3))
       (Sexpr (call "cheevd_"
          [jobz; uplo; n; a; lda; w; work; lwork; rwork; lrwork; iwork;
           liwork; info]))
       (Sexpr (call "cheevd$LEGACY"
          [jobz; uplo; n; a; lda; w; work; lwork; rwork; lrwork; iwork;
           liwork; info]))).

(** [void accelerate_zheevd(...)], 13 parameters. *)
Definition accelerate_zheevd
  (jobz uplo n a lda w work lwork rwork lrwork iwork liwork info : ptr)
  : M (option value) :=
  function_body
    (Sif (builtin_available (macos 13 3))
       (Sexpr (call "zheevd_"
          [jobz; uplo; n; a; lda; w; work; lwork; rwork; lrwork; iwork;
           liwork; info]))
       (Sexpr (call "zheevd$LEGACY"
          [jobz; uplo; n; a; lda; w; work; lwork; rwork; lrwork; iwork;
           liwork; info]))).

(** [void accelerate_sgelsd(...)], 14 parameters. *)
Definition accelerate_sgelsd
  (m n nrhs a lda b ldb s rcond rank work lwork iwork info : ptr)
  : M (option value) :=
  function_body
    (Sif (builtin_available (macos 13 3))
       (Sexpr (call "sgelsd_"
          [m; n; nrhs; a; lda; b; ldb; s; rcond; rank; work; lwork; iwork;
           info]))
       (Sexpr (call "sgelsd$LEGACY"
          [m; n; nrhs; a; lda; b; ldb; s; rcond; rank; work; lwork; iwork;
           info]))).

(** [void accelerate_dgelsd(...)], 14 parameters. *)
Definition accelerate_dgelsd
  (m n nrhs a lda b ldb s rcond rank work lwork iwork info : ptr)
  : M (option value) :=
  function_body
    (Sif (builtin_available (macos 13 3))
       (Sexpr (call "dgelsd_"
          [m; n; nrhs; a; lda; b; ldb; s; rcond; rank; work; lwork; iwork;
           info]))
       (Sexpr (call "dgelsd$LEGACY"
          [m; n; nrhs; a; lda; b; ldb; s; rcond; rank; work; lwork; iwork;
           info]))).

(** [void accelerate_cgelsd(...)], 15 parameters. *)
Definition accelerate_cgelsd
  (m n nrhs a lda b ldb s rcond rank work lwork rwork iwork info : ptr)
  : M (option value) :=
  function_body
    (Sif (builtin_available (macos 13 3))
       (Sexpr (call "cgelsd_"
          [m; n; nrhs; a; lda; b; ldb; s; rcond; rank; work; lwork; rwork;
           iwork; info]))
       (Sexpr (call "cgelsd$LEGACY"
          [m; n; nrhs; a; lda; b; ldb; s; rcond; rank; work; lwork; rwork;
           iwork; info]))).

(** [void accelerate_zgelsd(...)], 15 parameters. *)
Definition accelerate_zgelsd
  (m n nrhs a lda b ldb s rcond rank work lwork rwork iwork info : ptr)
  : M (option value) :=
  function_body
    (Sif (builtin_available (macos 13 3))
       (Sexpr (call "zgelsd_"
          [m; n; nrhs; a; lda; b; ldb; s; rcond; rank; work; lwork; rwork;
           iwork; info]))
       (Sexpr (call "zgelsd$LEGACY"
          [m; n; nrhs; a; lda; b; ldb; s; rcond; rank; work; lwork; rwork;
           iwork; info]))).

(** [void accelerate_dgeqrf(...)], 8 parameters. *)
Definition accelerate_dgeqrf
  (m n a lda tau work lwork info : ptr)
  : M (option value) :=
  function_body
    (Sif (builtin_available (macos 13 3))
       (Sexpr (call "dgeqrf_"
          [m; n; a; lda; tau; work; lwork; info]))
       (Sexpr (call "dgeqrf$LEGACY"
          [m; n; a; lda; tau; work; lwork; info]))).

(** [void accelerate_zgeqrf(...)], 8 parameters. *)
Definition accelerate_zgeqrf
  (m n a lda tau work lwork info : ptr)
  : M (option value) :=
  function_body
    (Sif (builtin_available (macos 13 3))
       (Sexpr (call "zgeqrf_"
          [m; n; a; lda; tau; work; lwork; info]))
       (Sexpr (call "zgeqrf$LEGACY"
          [m; n; a; lda; tau; work; lwork; info]))).

(** [void accelerate_dorgqr(...)], 9 parameters. *)
Definition accelerate_dorgqr
  (m n k a lda tau work lwork info : ptr)
  : M (option value) :=
  function_body
    (Sif (builtin_available (macos 13 3))
       (Sexpr (call "dorgqr_"
          [m; n; k; a; lda; tau; work; lwork; info]))
       (Sexpr (call "dorgqr$LEGACY"
          [m; n; k; a; lda; tau; work; lwork; info]))).

(** [void accelerate_zungqr(...)], 9 parameters. *)
Definition accelerate_zungqr
  (m n k a lda tau work lwork info : ptr)
  : M (option value) :=
  function_body
    (Sif (builtin_available (macos 13 3))
       (Sexpr (call "zungqr_"
          [m; n; k; a; lda; tau; work; lwork; info]))
       (Sexpr (call "zungqr$LEGACY"
          [m; n; k; a; lda; tau; work; lwork; info]))).

(** [void accelerate_sgesv(...)], 8 parameters. *)
Definition accelerate_sgesv
  (n nrhs a lda ipiv b ldb info : ptr)
  : M (option value) :=
  function_body
    (Sif (builtin_available (macos 13 3))
       (Sexpr (call "sgesv_"
          [n; nrhs; a; lda; ipiv; b; ldb; info]))
       (Sexpr (call "sgesv$LEGACY"
          [n; nrhs; a; lda; ipiv; b; ldb; info]))).

(** [void accelerate_dgesv(...)], 8 parameters. *)
Definition accelerate_dgesv
  (n nrhs a lda ipiv b ldb info : ptr)
  : M (option value) :=
  function_body
    (Sif (builtin_available (macos 13 3))
       (Sexpr (call "dgesv_"
          [n; nrhs; a; lda; ipiv; b; ldb; info]))
       (Sexpr (call "dgesv$LEGACY"
          [n; nrhs; a; lda; ipiv; b; ldb; info]))).

(** [void accelerate_cgesv(...)], 8 parameters. *)
Definition accelerate_cgesv
  (n nrhs a lda ipiv b ldb info : ptr)
  : M (option value) :=
  function_body
    (Sif (builtin_available (macos 13 3))
       (Sexpr (call "cgesv_"
          [n; nrhs; a; lda; ipiv; b; ldb; info]))
       (Sexpr (call "cgesv$LEGACY"
          [n; nrhs; a; lda; ipiv; b; ldb; info]))).

(** [void accelerate_zgesv(...)], 8 parameters. *)
Definition accelerate_zgesv
  (n nrhs a lda ipiv b ldb info : ptr)
  : M (option value) :=
  function_body
    (Sif (builtin_available (macos 13 3))
       (Sexpr (call "zgesv_"
          [n; nrhs; a; lda; ipiv; b; ldb; info]))
       (Sexpr (call "zgesv$LEGACY"
          [n; nrhs; a; lda; ipiv; b; ldb; info]))).

(** [fortran_int accelerate_sgetrf(...)], 6 parameters. *)
Definition accelerate_sgetrf
  (m n a lda ipiv info : ptr)
  : M (option value) :=
  function_body
    (Sif (builtin_available (macos 13 3))
       (Sexpr (call "sgetrf_"
          [m; n; a; lda; ipiv; info]))
       (Sexpr (call "sgetrf$LEGACY"
          [m; n; a; lda; ipiv; info]))).

(** [fortran_int accelerate_dgetrf(...)], 6 parameters. *)
Definition accelerate_dgetrf
  (m n a lda ipiv info : ptr)
  : M (option value) :=
  function_body
    (Sif (builtin_available (macos 13 3))
       (Sexpr (call "dgetrf_"
          [m; n; a; lda; ipiv; info]))
       (Sexpr (call "dgetrf$LEGACY"
          [m; n; a; lda; ipiv; info]))).

(** [fortran_int accelerate_cgetrf(...)], 6 parameters. *)
Definition accelerate_cgetrf
  (m n a lda ipiv info : ptr)
  : M (option value) :=
  function_body
    (Sif (builtin_available (macos 13 3))
       (Sexpr (call "cgetrf_"
          [m; n; a; lda; ipiv; info]))
       (Sexpr (call "cgetrf$LEGACY"
          [m; n; a; lda; ipiv; info]))).

(** [fortran_int accelerate_zgetrf(...)], 6 parameters. *)
Definition accelerate_zgetrf
  (m n a lda ipiv info : ptr)
  : M (option value) :=
  function_body
    (Sif (builtin_available (macos 13 3))
       (Sexpr (call "zgetrf_"
          [m; n; a; lda; ipiv; info]))
       (Sexpr (call "zgetrf$LEGACY"
          [m; n; a; lda; ipiv; info]))).

(** [void accelerate_spotrf(...)], 5 parameters. *)
Definition accelerate_spotrf
  (uplo n a lda info : ptr)
  : M (option value) :=
  function_body
    (Sif (builtin_available (macos 13 3))
       (Sexpr (call "spotrf_"
          [uplo; n; a; lda; info]))
       (Sexpr (call "spotrf$LEGACY"
          [uplo; n; a; lda; info]))).

(** [void accelerate_dpotrf(...)], 5 parameters. *)
Definition accelerate_dpotrf
  (uplo n a lda info : ptr)
  : M (option value) :=
  function_body
    (Sif (builtin_available (macos 13 3))
       (Sexpr (call "dpotrf_"
          [uplo; n; a; lda; info]))
       (Sexpr (call "dpotrf$LEGACY"
          [uplo; n; a; lda; info]))).

(** [void accelerate_cpotrf(...)], 5 parameters. *)
Definition accelerate_cpotrf
  (uplo n a lda info : ptr)
  : M (option value) :=
  function_body
    (Sif (builtin_available (macos 13 3))
       (Sexpr (call "cpotrf_"
          [uplo; n; a; lda; info]))
       (Sexpr (call "cpotrf$LEGACY"
          [uplo; n; a; lda; info]))).

(** [void accelerate_zpotrf(...)], 5 parameters. *)
Definition accelerate_zpotrf
  (uplo n a lda info : ptr)
  : M (option value) :=
  function_body
    (Sif (builtin_available (macos 13 3))
       (Sexpr (call "zpotrf_"
          [uplo; n; a; lda; info]))
       (Sexpr (call "zpotrf$LEGACY"
          [uplo; n; a; lda; info]))).

(** [void accelerate_sgesdd(...)], 14 parameters. *)
Definition accelerate_sgesdd
  (jobz m n a lda s u ldu vt ldvt work lwork iwork info : ptr)
  : M (option value) :=
  function_body
    (Sif (builtin_available (macos 13 3))
       (Sexpr (call "sgesdd_"
          [jobz; m; n; a; lda; s; u; ldu; vt; ldvt; work; lwork; iwork; info]))
       (Sexpr (call "sgesdd$LEGACY"
          [jobz; m; n; a; lda; s; u; ldu; vt; ldvt; work; lwork; iwork; info]))).

(** [void accelerate_dgesdd(...)], 14 parameters. *)
Definition accelerate_dgesdd
  (jobz m n a lda s u ldu vt ldvt work lwork iwork info : ptr)
  : M (option value) :=
  function_body
    (Sif (builtin_available (macos 13 3))
       (Sexpr (call "dgesdd_"
          [jobz; m; n; a; lda; s; u; ldu; vt; ldvt; work; lwork; iwork; info]))
       (Sexpr (call "dgesdd$LEGACY"
          [jobz; m; n; a; lda; s; u; ldu; vt; ldvt; work; lwork; iwork; info]))).

(** [void accelerate_cgesdd(...)], 15 parameters. *)
Definition accelerate_cgesdd
  (jobz m n a lda s u ldu vt ldvt work lwork rwork iwork info : ptr)
  : M (option value) :=
  function_body
    (Sif (builtin_available (macos 13 3))
       (Sexpr (call "cgesdd_"
          [jobz; m; n; a; lda; s; u; ldu; vt; ldvt; work; lwork; rwork; iwork;
           info]))
       (Sexpr (call "cgesdd$LEGACY"
          [jobz; m; n; a; lda; s; u; ldu; vt; ldvt; work; lwork; rwork; iwork;
           info]))).

(** [void accelerate_zgesdd(...)], 15 parameters. *)
Definition accelerate_zgesdd
  (jobz m n a lda s u ldu vt ldvt work lwork rwork iwork info : ptr)
  : M (option value) :=
  function_body
    (Sif (builtin_available (macos 13 3))
       (Sexpr (call "zgesdd_"
          [jobz; m; n; a; lda; s; u; ldu; vt; ldvt; work; lwork; rwork; iwork;
           info]))
       (Sexpr (call "zgesdd$LEGACY"
          [jobz; m; n; a; lda; s; u; ldu; vt; ldvt; work; lwork; rwork; iwork;
           info]))).

(** [void accelerate_spotrs(...)], 8 parameters. *)
Definition accelerate_spotrs
  (uplo n nrhs a lda b ldb info : ptr)
  : M (option value) :=
  function_body
    (Sif (builtin_available (macos 13 3))
       (Sexpr (call "spotrs_"
          [uplo; n; nrhs; a; lda; b; ldb; info]))
       (Sexpr (call "spotrs$LEGACY"
          [uplo; n; nrhs; a; lda; b; ldb; info]))).

(** [void accelerate_dpotrs(...)], 8 parameters. *)
Definition accelerate_dpotrs
  (uplo n nrhs a lda b ldb info : ptr)
  : M (option value) :=
  function_body
    (Sif (builtin_available (macos 13 3))
       (Sexpr (call "dpotrs_"
          [uplo; n; nrhs; a; lda; b; ldb; info]))
       (Sexpr (call "dpotrs$LEGACY"
          [uplo; n; nrhs; a; lda; b; ldb; info]))).

(** [void accelerate_cpotrs(...)], 8 parameters. *)
Definition accelerate_cpotrs
  (uplo n nrhs a lda b ldb info : ptr)
  : M (option value) :=
  function_body
    (Sif (builtin_available (macos 13 3))
       (Sexpr (call "cpotrs_"
          [uplo; n; nrhs; a; lda; b; ldb; info]))
       (Sexpr (call "cpotrs$LEGACY"
          [uplo; n; nrhs; a; lda; b; ldb; info]))).

(** [void accelerate_zpotrs(...)], 8 parameters. *)
Definition accelerate_zpotrs
  (uplo n nrhs a lda b ldb info : ptr)
  : M (option value) :=
  function_body
    (Sif (builtin_available (macos 13 3))
       (Sexpr (call "zpotrs_"
          [uplo; n; nrhs; a; lda; b; ldb; info]))
       (Sexpr (call "zpotrs$LEGACY"
          [uplo; n; nrhs; a; lda; b; ldb; info]))).

(** [void accelerate_spotri(...)], 5 parameters. *)
Definition accelerate_spotri
  (uplo n a lda info : ptr)
  : M (option value) :=
  function_body
    (Sif (builtin_available (macos 13 3))
       (Sexpr (call "spotri_"
          [uplo; n; a; lda; info]))
       (Sexpr (call "spotri$LEGACY"
          [uplo; n; a; lda; info]))).

(** [void accelerate_dpotri(...)], 5 parameters. *)
Definition accelerate_dpotri
  (uplo n a lda info : ptr)
  : M (option value) :=
  function_body
    (Sif (builtin_available (macos 13 3))
       (Sexpr (call "dpotri_"
          [uplo; n; a; lda; info]))
       (Sexpr (call "dpotri$LEGACY"
          [uplo; n; a; lda; info]))).

(** [void accelerate_cpotri(...)], 5 parameters. *)
Definition accelerate_cpotri
  (uplo n a lda info : ptr)
  : M (option value) :=
  function_body
    (Sif (builtin_available (macos 13 3))
       (Sexpr (call "cpotri_"
          [uplo; n; a; lda; info]))
       (Sexpr (call "cpotri$LEGACY"
          [uplo; n; a; lda; info]))).

(** [void accelerate_zpotri(...)], 5 parameters. *)
Definition accelerate_zpotri
  (uplo n a lda info : ptr)
  : M (option value) :=
  function_body
    (Sif (builtin_available (macos 13 3))
       (Sexpr (call "zpotri_"
          [uplo; n; a; lda; info]))
       (Sexpr (call "zpotri$LEGACY"
          [uplo; n; a; lda; info]))).

(** [fortran_int accelerate_scopy(...)], 5 parameters. *)
Definition accelerate_scopy
  (n sx incx sy incy : ptr)
  : M (option value) :=
  function_body
    (Sif (builtin_available (macos 13 3))
       (Sexpr (call "scopy_"
          [n; sx; incx; sy; incy]))
       (Sexpr (call "scopy$LEGACY"
          [n; sx; incx; sy; incy]))).

(** [fortran_int accelerate_dcopy(...)], 5 parameters. *)
Definition accelerate_dcopy
  (n sx incx sy incy : ptr)
  : M (option value) :=
  function_body
    (Sif (builtin_available (macos 13 3))
       (Sexpr (call "dcopy_"
          [n; sx; incx; sy; incy]))
       (Sexpr (call "dcopy$LEGACY"
          [n; sx; incx; sy; incy]))).

(** [fortran_int accelerate_ccopy(...)], 5 parameters. *)
Definition accelerate_ccopy
  (n sx incx sy incy : ptr)
  : M (option value) :=
  function_body
    (Sif (builtin_available (macos 13 3))
       (Sexpr (call "ccopy_"
          [n; sx; incx; sy; incy]))
       (Sexpr (call "ccopy$LEGACY"
          [n; sx; incx; sy; incy]))).

(** [fortran_int accelerate_zcopy(...)], 5 parameters. *)
Definition accelerate_zcopy
  (n sx incx sy incy : ptr)
  : M (option value) :=
  function_body
    (Sif (builtin_available (macos 13 3))
       (Sexpr (call "zcopy_"
          [n; sx; incx; sy; incy]))
       (Sexpr (call "zcopy$LEGACY"
          [n; sx; incx; sy; incy]))).

(** [float accelerate_sdot(...)], 5 parameters. *)
Definition accelerate_sdot
  (n sx incx sy incy : ptr)
  : M (option value) :=
  function_body
    (Sif (builtin_available (macos 13 3))
       (Sexpr (call "sdot_"
          [n; sx; incx; sy; incy]))
       (Sexpr (call "sdot$LEGACY"
          [n; sx; incx; sy; incy]))).

(** [double accelerate_ddot(...)], 5 parameters. *)
Definition accelerate_ddot
  (n sx incx sy incy : ptr)
  : M (option value) :=
  function_body
    (Sif (builtin_available (macos 13 3))
       (Sexpr (call "ddot_"
          [n; sx; incx; sy; incy]))
       (Sexpr (call "ddot$LEGACY"
          [n; sx; incx; sy; incy]))).

(** [void accelerate_cdotu(...)], 6 parameters. *)
Definition accelerate_cdotu
  (ret n sx incx sy incy : ptr)
  : M (option value) :=
  function_body
    (Sif (builtin_available (macos 13 3))
       (Sexpr (call "cdotu_"
          [ret; n; sx; incx; sy; incy]))
       (Sexpr (call "cdotu$LEGACY"
          [ret; n; sx; incx; sy; incy]))).

(** [void accelerate_zdotu(...)], 6 parameters. *)
Definition accelerate_zdotu
  (ret n sx incx sy incy : ptr)
  : M (option value) :=
  function_body
    (Sif (builtin_available (macos 13 3))
       (Sexpr (call "zdotu_"
          [ret; n; sx; incx; sy; incy]))
       (Sexpr (call "zdotu$LEGACY"
          [ret; n; sx; incx; sy; incy]))).

(** [void accelerate_cdotc(...)], 6 parameters. *)
Definition accelerate_cdotc
  (ret n sx incx sy incy : ptr)
  : M (option value) :=
  function_body
    (Sif (builtin_available (macos 13 3))
       (Sexpr (call "cdotc_"
          [ret; n; sx; incx; sy; incy]))
       (Sexpr (call "cdotc$LEGACY"
          [ret; n; sx; incx; sy; incy]))).

(** [void accelerate_zdotc(...)], 6 parameters. *)
Definition accelerate_zdotc
  (ret n sx incx sy incy : ptr)
  : M (option value) :=
  function_body
    (Sif (builtin_available (macos 13 3))
       (Sexpr (call "zdotc_"
          [ret; n; sx; incx; sy; incy]))
       (Sexpr (call "zdotc$LEGACY"
          [ret; n; sx; incx; sy; incy]))).

(** [void accelerate_sgemm(...)], 13 parameters. *)
Definition accelerate_sgemm
  (transa transb m n k alpha a lda b ldb beta c ldc : ptr)
  : M (option value) :=
  function_body
    (Sif (builtin_available (macos 13 3))
       (Sexpr (call "sgemm_"
          [transa; transb; m; n; k; alpha; a; lda; b; ldb; beta; c; ldc]))
       (Sexpr (call "sgemm$LEGACY"
          [transa; transb; m; n; k; alpha; a; lda; b; ldb; beta; c; ldc]))).

(** [void accelerate_dgemm(...)], 13 parameters. *)
Definition accelerate_dgemm
  (transa transb m n k alpha a lda b ldb beta c ldc : ptr)
  : M (option value) :=
  function_body
    (Sif (builtin_available (macos 13 3))
       (Sexpr (call "dgemm_"
          [transa; transb; m; n; k; alpha; a; lda; b; ldb; beta; c; ldc]))
       (Sexpr (call "dgemm$LEGACY"
          [transa; transb; m; n; k; alpha; a; lda; b; ldb; beta; c; ldc]))).

(** [void accelerate_cgemm(...)], 13 parameters. *)
Definition accelerate_cgemm
  (transa transb m n k alpha a lda b ldb beta c ldc : ptr)
  : M (option value) :=
  function_body
    (Sif (builtin_available (macos 13 3))
       (Sexpr (call "cgemm_"
          [transa; transb; m; n; k; alpha; a; lda; b; ldb; beta; c; ldc]))
       (Sexpr (call "cgemm$LEGACY"
          [transa; transb; m; n; k; alpha; a; lda; b; ldb; beta; c; ldc]))).

(** [void accelerate_zgemm(...)], 13 parameters. *)
Definition accelerate_zgemm
  (transa transb m n k alpha a lda b ldb beta c ldc : ptr)
  : M (option value) :=
  function_body
    (Sif (builtin_available (macos 13 3))
       (Sexpr (call "zgemm_"
          [transa; transb; m; n; k; alpha; a; lda; b; ldb; beta; c; ldc]))
       (Sexpr (call "zgemm$LEGACY"
          [transa; transb; m; n; k; alpha; a; lda; b; ldb; beta; c; ldc]))).
(** A call of the wrapper [r] with the argument vector [args]: the
    arguments are bound to the parameters by position.  A vector of the
    wrong length is no call of the C function ([None]). *)
Definition accelerate (r : routine) (args : list ptr)
  : option (M (option value)) :=
  match r with
  | sgeev =>
      match args with
      | [jobvl; jobvr; n; a; lda; wr; wi; vl; ldvl; vr; ldvr; work; lwork;
         info] =>
          Some
            (accelerate_sgeev jobvl jobvr n a lda wr wi vl ldvl vr ldvr work
              lwork info)
      | _ => None
      end
  | dgeev =>
      match args with
      | [jobvl; jobvr; n; a; lda; wr; wi; vl; ldvl; vr; ldvr; work; lwork;
         info] =>
          Some
            (accelerate_dgeev jobvl jobvr n a lda wr wi vl ldvl vr ldvr work
              lwork info)
      | _ => None
      end
  | cgeev =>
      match args with
      | [jobvl; jobvr; n; a; lda; w; vl; ldvl; vr; ldvr; work; lwork; rwork;
         info] =>
          Some
            (accelerate_cgeev jobvl jobvr n a lda w vl ldvl vr ldvr work
              lwork rwork info)
      | _ => None
      end
  | zgeev =>
      match args with
      | [jobvl; jobvr; n; a; lda; w; vl; ldvl; vr; ldvr; work; lwork; rwork;
         info] =>
          Some
            (accelerate_zgeev jobvl jobvr n a lda w vl ldvl vr ldvr work
              lwork rwork info)
      | _ => None
      end
  | ssyevd =>
      match args with
      | [jobz; uplo; n; a; lda; w; work; lwork; iwork; liwork; info] =>
          Some
            (accelerate_ssyevd jobz uplo n a lda w work lwork iwork liwork
              info)
      | _ => None
      end
  | dsyevd =>
      match args with
      | [jobz; uplo; n; a; lda; w; work; lwork; iwork; liwork; info] =>
          Some
            (accelerate_dsyevd jobz uplo n a lda w work lwork iwork liwork
              info)
      | _ => None
      end
  | cheevd =>
      match args with
      | [jobz; uplo; n; a; lda; w; work; lwork; rwork; lrwork; iwork; liwork;
         info] =>
          Some
            (accelerate_cheevd jobz uplo n a lda w work lwork rwork lrwork
              iwork liwork info)
      | _ => None
      end
  | zheevd =>
      match args with
      | [jobz; uplo; n; a; lda; w; work; lwork; rwork; lrwork; iwork; liwork;
         info] =>
          Some
            (accelerate_zheevd jobz uplo n a lda w work lwork rwork lrwork
              iwork liwork info)
      | _ => None
      end
  | sgelsd =>
      match args with
      | [m; n; nrhs; a; lda; b; ldb; s; rcond; rank; work; lwork; iwork; info] =>
          Some
            (accelerate_sgelsd m n nrhs a lda b ldb s rcond rank work lwork
              iwork info)
      | _ => None
      end
  | dgelsd =>
      match args with
      | [m; n; nrhs; a; lda; b; ldb; s; rcond; rank; work; lwork; iwork; info] =>
          Some
            (accelerate_dgelsd m n nrhs a lda b ldb s rcond rank work lwork
              iwork info)
      | _ => None
      end
  | cgelsd =>
      match args with
      | [m; n; nrhs; a; lda; b; ldb; s; rcond; rank; work; lwork; rwork;
         iwork; info] =>
          Some
            (accelerate_cgelsd m n nrhs a lda b ldb s rcond rank work lwork
              rwork iwork info)
      | _ => None
      end
  | zgelsd =>
      match args with
      | [m; n; nrhs; a; lda; b; ldb; s; rcond; rank; work; lwork; rwork;
         iwork; info] =>
          Some
            (accelerate_zgelsd m n nrhs a lda b ldb s rcond rank work lwork
              rwork iwork info)
      | _ => None
      end
  | dgeqrf =>
      match args with
      | [m; n; a; lda; tau; work; lwork; info] =>
          Some
            (accelerate_dgeqrf m n a lda tau work lwork info)
      | _ => None
      end
  | zgeqrf =>
      match args with
      | [m; n; a; lda; tau; work; lwork; info] =>
          Some
            (accelerate_zgeqrf m n a lda tau work lwork info)
      | _ => None
      end
  | dorgqr =>
      match args with
      | [m; n; k; a; lda; tau; work; lwork; info] =>
          Some
            (accelerate_dorgqr m n k a lda tau work lwork info)
      | _ => None
      end
  | zungqr =>
      match args with
      | [m; n; k; a; lda; tau; work; lwork; info] =>
          Some
            (accelerate_zungqr m n k a lda tau work lwork info)
      | _ => None
      end
  | sgesv =>
      match args with
      | [n; nrhs; a; lda; ipiv; b; ldb; info] =>
          Some
            (accelerate_sgesv n nrhs a lda ipiv b ldb info)
      | _ => None
      end
  | dgesv =>
      match args with
      | [n; nrhs; a; lda; ipiv; b; ldb; info] =>
          Some
            (accelerate_dgesv n nrhs a lda ipiv b ldb info)
      | _ => None
      end
  | cgesv =>
      match args with
      | [n; nrhs; a; lda; ipiv; b; ldb; info] =>
          Some
            (accelerate_cgesv n nrhs a lda ipiv b ldb info)
      | _ => None
      end
  | zgesv =>
      match args with
      | [n; nrhs; a; lda; ipiv; b; ldb; info] =>
          Some
            (accelerate_zgesv n nrhs a lda ipiv b ldb info)
      | _ => None
      end
  | sgetrf =>
      match args with
      | [m; n; a; lda; ipiv; info] =>
          Some
            (accelerate_sgetrf m n a lda ipiv info)
      | _ => None
      end
  | dgetrf =>
      match args with
      | [m; n; a; lda; ipiv; info] =>
          Some
            (accelerate_dgetrf m n a lda ipiv info)
      | _ => None
      end
  | cgetrf =>
      match args with
      | [m; n; a; lda; ipiv; info] =>
          Some
            (accelerate_cgetrf m n a lda ipiv info)
      | _ => None
      end
  | zgetrf =>
      match args with
      | [m; n; a; lda; ipiv; info] =>
          Some
            (accelerate_zgetrf m n a lda ipiv info)
      | _ => None
      end
  | spotrf =>
      match args with
      | [uplo; n; a; lda; info] =>
          Some
            (accelerate_spotrf uplo n a lda info)
      | _ => None
      end
  | dpotrf =>
      match args with
      | [uplo; n; a; lda; info] =>
          Some
            (accelerate_dpotrf uplo n a lda info)
      | _ => None
      end
  | cpotrf =>
      match args with
      | [uplo; n; a; lda; info] =>
          Some
            (accelerate_cpotrf uplo n a lda info)
      | _ => None
      end
  | zpotrf =>
      match args with
      | [uplo; n; a; lda; info] =>
          Some
            (accelerate_zpotrf uplo n a lda info)
      | _ => None
      end
  | sgesdd =>
      match args with
      | [jobz; m; n; a; lda; s; u; ldu; vt; ldvt; work; lwork; iwork; info] =>
          Some
            (accelerate_sgesdd jobz m n a lda s u ldu vt ldvt work lwork
              iwork info)
      | _ => None
      end
  | dgesdd =>
      match args with
      | [jobz; m; n; a; lda; s; u; ldu; vt; ldvt; work; lwork; iwork; info] =>
          Some
            (accelerate_dgesdd jobz m n a lda s u ldu vt ldvt work lwork
              iwork info)
      | _ => None
      end
  | cgesdd =>
      match args with
      | [jobz; m; n; a; lda; s; u; ldu; vt; ldvt; work; lwork; rwork; iwork;
         info] =>
          Some
            (accelerate_cgesdd jobz m n a lda s u ldu vt ldvt work lwork
              rwork iwork info)
      | _ => None
      end
  | zgesdd =>
      match args with
      | [jobz; m; n; a; lda; s; u; ldu; vt; ldvt; work; lwork; rwork; iwork;
         info] =>
          Some
            (accelerate_zgesdd jobz m n a lda s u ldu vt ldvt work lwork
              rwork iwork info)
      | _ => None
      end
  | spotrs =>
      match args with
      | [uplo; n; nrhs; a; lda; b; ldb; info] =>
          Some
            (accelerate_spotrs uplo n nrhs a lda b ldb info)
      | _ => None
      end
  | dpotrs =>
      match args with
      | [uplo; n; nrhs; a; lda; b; ldb; info] =>
          Some
            (accelerate_dpotrs uplo n nrhs a lda b ldb info)
      | _ => None
      end
  | cpotrs =>
      match args with
      | [uplo; n; nrhs; a; lda; b; ldb; info] =>
          Some
            (accelerate_cpotrs uplo n nrhs a lda b ldb info)
      | _ => None
      end
  | zpotrs =>
      match args with
      | [uplo; n; nrhs; a; lda; b; ldb; info] =>
          Some
            (accelerate_zpotrs uplo n nrhs a lda b ldb info)
      | _ => None
      end
  | spotri =>
      match args with
      | [uplo; n; a; lda; info] =>
          Some
            (accelerate_spotri uplo n a lda info)
      | _ => None
      end
  | dpotri =>
      match args with
      | [uplo; n; a; lda; info] =>
          Some
            (accelerate_dpotri uplo n a lda info)
      | _ => None
      end
  | cpotri =>
      match args with
      | [uplo; n; a; lda; info] =>
          Some
            (accelerate_cpotri uplo n a lda info)
      | _ => None
      end
  | zpotri =>
      match args with
      | [uplo; n; a; lda; info] =>
          Some
            (accelerate_zpotri uplo n a lda info)
      | _ => None
      end
  | scopy =>
      match args with
      | [n; sx; incx; sy; incy] =>
          Some
            (accelerate_scopy n sx incx sy incy)
      | _ => None
      end
  | dcopy =>
      match args with
      | [n; sx; incx; sy; incy] =>
          Some
            (accelerate_dcopy n sx incx sy incy)
      | _ => None
      end
  | ccopy =>
      match args with
      | [n; sx; incx; sy; incy] =>
          Some
            (accelerate_ccopy n sx incx sy incy)
      | _ => None
      end
  | zcopy =>
      match args with
      | [n; sx; incx; sy; incy] =>
          Some
            (accelerate_zcopy n sx incx sy incy)
      | _ => None
      end
  | sdot =>
      match args with
      | [n; sx; incx; sy; incy] =>
          Some
            (accelerate_sdot n sx incx sy incy)
      | _ => None
      end
  | ddot =>
      match args with
      | [n; sx; incx; sy; incy] =>
          Some
            (accelerate_ddot n sx incx sy incy)
      | _ => None
      end
  | cdotu =>
      match args with
      | [ret; n; sx; incx; sy; incy] =>
          Some
            (accelerate_cdotu ret n sx incx sy incy)
      | _ => None
      end
  | zdotu =>
      match args with
      | [ret; n; sx; incx; sy; incy] =>
          Some
            (accelerate_zdotu ret n sx incx sy incy)
      | _ => None
      end
  | cdotc =>
      match args with
      | [ret; n; sx; incx; sy; incy] =>
          Some
            (accelerate_cdotc ret n sx incx sy incy)
      | _ => None
      end
  | zdotc =>
      match args with
      | [ret; n; sx; incx; sy; incy] =>
          Some
            (accelerate_zdotc ret n sx incx sy incy)
      | _ => None
      end
  | sgemm =>
      match args with
      | [transa; transb; m; n; k; alpha; a; lda; b; ldb; beta; c; ldc] =>
          Some
            (accelerate_sgemm transa transb m n k alpha a lda b ldb beta c
              ldc)
      | _ => None
      end
  | dgemm =>
      match args with
      | [transa; transb; m; n; k; alpha; a; lda; b; ldb; beta; c; ldc] =>
          Some
            (accelerate_dgemm transa transb m n k alpha a lda b ldb beta c
              ldc)
      | _ => None
      end
  | cgemm =>
      match args with
      | [transa; transb; m; n; k; alpha; a; lda; b; ldb; beta; c; ldc] =>
          Some
            (accelerate_cgemm transa transb m n k alpha a lda b ldb beta c
              ldc)
      | _ => None
      end
  | zgemm =>
      match args with
      | [transa; transb; m; n; k; alpha; a; lda; b; ldb; beta; c; ldc] =>
          Some
            (accelerate_zgemm transa transb m n k alpha a lda b ldb beta c
              ldc)
      | _ => None
      end
  end.
(** The result of the call [accelerate_r(args)] in the world [w]. *)
Definition run (r : routine) (args : list ptr) (w : world)
  : option (option value * world) :=
  match accelerate r args with
  | Some body => Some (body w)
  | None => None
  end.

End Wrappers.

(** ** Stand-in entry points and sample worlds

    The entry points of the framework are outside the sources; the
    properties below hold for every [library].  The stand-ins here are the
    instrumented entry points that a test of the wrappers links in place
    of the framework. *)

Module Standin.

(** Does the symbol carry the suffix [$LEGACY]? *)
Fixpoint is_legacy (sym : string) : bool :=
  match sym with
  | EmptyString => false
  | String _ rest => String.eqb sym "$LEGACY" || is_legacy rest
  end.

(** Entry points that do nothing and return nothing. *)
Definition silent : library := fun _ _ m => (m, None).

(** Entry points with sentinels: a modern entry point writes the status 0
    through its last argument and returns 0; a legacy entry point writes
    the status 7 and returns 7. *)
Definition sentinel : library :=
  fun sym args m =>
    let status := if is_legacy sym then 7 else 0 in
    (store_int32 (List.last args 0) status m, Some (Vint status)).

(** Dot products that return 32.0 (single precision, bit pattern
    [0x42000000]) without touching the memory; every other entry point is
    silent. *)
Definition dot32 : library :=
  fun sym args m =>
    if String.eqb sym "sdot_" || String.eqb sym "sdot$LEGACY"
    then (m, Some (Vsingle 1107296256))
    else (m, None).

(** A world with an empty memory and an empty trace. *)
Definition boot (host : version) : world :=
  {| host_os := host; mem := ∅; trace := [] |}.

Definition macos_12_6_3 : version := Version 12 6 3.
Definition macos_13_2_1 : version := Version 13 2 1.
Definition macos_13_3_0 : version := Version 13 3 0.
Definition macos_14_0_0 : version := Version 14 0 0.

End Standin.

(** ** What every wrapper does *)

(** The version against which the wrappers test the host. *)
Definition threshold : version := macos 13 3.

(** The capability predicate on a host. *)
Definition capable (host : version) : bool := version_leb threshold host.

(** The symbol that serves the routine [r] on a host. *)
Definition selected (r : routine) (host : version) : string :=
  if capable host then modern_symbol r else legacy_symbol r.

(** The same world with another host version. *)
Definition with_host (h : version) (w : world) : world :=
  {| host_os := h; mem := mem w; trace := trace w |}.

(** The events that a run added to a trace of length [n]. *)
Definition added (n : nat) (t : list event) : list event := List.skipn n t.

(** The precision letter and the family of a routine: [dgeqrf] is the
    routine [geqrf] in precision [d]. *)
Definition precision (r : routine) : string :=
  String.substring 0 1 (routine_name r).

Definition family (r : routine) : string :=
  let s := routine_name r in
  String.substring 1 (String.length s - 1) s.

(** The QR factorisation ([geqrf]) and the construction of its orthogonal
    or unitary factor ([orgqr], [ungqr]). *)
Definition qr_family (r : routine) : bool :=
  existsb (String.eqb (family r)) ["geqrf"; "orgqr"; "ungqr"].

(** The functions that accelerate_wrapper.c defines, by name. *)
Definition exported : list string :=
  map (fun r => fn_name (prototype_of r)) all_routines.

Definition is_exported (name : string) : bool :=
  existsb (String.eqb name) exported.

(** The four complex dot products. *)
Definition complex_dots : list routine := [cdotu; zdotu; cdotc; zdotc].

(** The wrappers that the file declares with a return type other than
    [void]. *)
Definition returns_value (r : routine) : bool :=
  negb (ctype_eqb (ret_type (prototype_of r)) Tvoid).

(** ** Callers of the wrappers *)

(** One call of a wrapper: the routine and the argument vector. *)
Definition invocation : Type := (routine * list ptr)%type.

(** A caller that makes the calls of [prog] one after the other, each in
    the world the one before left (a Cholesky solve is [potrf] followed by
    [potrs]).  The values the wrappers hand back are not used. *)
Fixpoint run_all (backend : library) (prog : list invocation) (w : world)
  : option world :=
  match prog with
  | [] => Some w
  | (r, args) :: rest =>
      match run backend r args w with
      | Some (_, w') => run_all backend rest w'
      | None => None
      end
  end.

(** Every call of the sequence has as many arguments as its wrapper has
    parameters. *)
Definition well_formed (prog : list invocation) : bool :=
  forallb (fun c => Nat.eqb (length (snd c)) (arity (fst c))) prog.

(** What the entry points selected on the host [h] do to a memory when
    called in the order of [prog]. *)
Definition effects (backend : library) (h : version) (prog : list invocation)
    (m : memory) : memory :=
  List.fold_left (fun m' c => fst (backend (selected (fst c) h) (snd c) m')) prog m.

(** ** Naming convention of BLAS and LAPACK *)

(** The element types that go with a precision letter: [s] and [d] are
    real, [c] and [z] complex with real scalars of the same width. *)
Definition element_types (prec : string) : list ctype :=
  if String.eqb prec "s" then [Tfloat]
  else if String.eqb prec "d" then [Tdouble]
  else if String.eqb prec "c" then [Tfloat; Tf2c_complex]
  else if String.eqb prec "z" then [Tdouble; Tf2c_doublecomplex; Tfortran_doublecomplex]
  else [].

(** A type fits a precision when it is a character flag, an integer or an
    element type of that precision. *)
Definition type_fits (prec : string) (t : ctype) : bool :=
  ctype_eqb t Tchar || ctype_eqb t Tfortran_int ||
  existsb (ctype_eqb t) (element_types prec).

(** The wrappers whose parameter list names a status output [info]. *)
Definition has_info (r : routine) : bool :=
  existsb (fun p => String.eqb (p_name p) "info") (fn_params (prototype_of r)).

(** ** Properties of the dispatch *)

Section Properties.

Variable backend : library.

Lemma added_app (t new : list event) : added (length t) (t ++ new) = new.
Proof.
  unfold added. induction t as [|e t IH]; simpl; [reflexivity | exact IH].
Qed.

(** Every wrapper, on an argument vector of its arity, asks once whether
    the threshold version is available, calls the selected symbol on the
    vector, keeps the memory that the entry point left, and reaches its
    closing brace without a [return]. *)
Lemma run_eq (r : routine) (args : list ptr) (w : world) :
  length args = arity r ->
  run backend r args w =
    Some (None,
          {| host_os := host_os w;
             mem := fst (backend (selected r (host_os w)) args (mem w));
             trace := trace w ++
                      [Eavail threshold (capable (host_os w));
                       Ecall (selected r (host_os w)) args] |}).
Proof.
  intros H.
  destruct r; simpl in H;
    repeat (destruct args as [|? args]; [discriminate H|]; simpl in H);
    (destruct args; [|discriminate H]);
    cbv -[version_leb app];
    destruct (version_leb _ _); destruct (backend _ _ _);
    rewrite <- app_assoc; reflexivity.
Qed.

(** The wrappers that are declared with a return type other than [void]:
    the [getrf] and [copy] families, [sdot] and [ddot]. *)
Lemma wrappers_with_return_type :
  List.filter returns_value all_routines =
    [sgetrf; dgetrf; cgetrf; zgetrf; scopy; dcopy; ccopy; zcopy; sdot; ddot].
Proof. reflexivity. Qed.

(** No wrapper contains a [return]: whatever the routine, the caller of
    the wrapper gets no value from it. *)
Lemma wrapper_hands_back_no_value (r : routine) (args : list ptr) (w : world) :
  length args = arity r ->
  option_map fst (run backend r args w) = Some None.
Proof. intros H. rewrite (run_eq r args w H). reflexivity. Qed.

(** What the selected entry point wrote into the memory reaches the
    caller as it is. *)
Lemma outputs_pass_through (r : routine) (args : list ptr) (w : world) :
  length args = arity r ->
  option_map (fun res => mem (snd res)) (run backend r args w) =
    Some (fst (backend (selected r (host_os w)) args (mem w))).
Proof. intros H. rewrite (run_eq r args w H). reflexivity. Qed.

Lemma symbols_differ (r : routine) :
  String.eqb (modern_symbol r) (legacy_symbol r) = false.
Proof. destruct r; reflexivity. Qed.

Lemma all_routines_complete (r : routine) : In r all_routines.
Proof. destruct r; simpl; tauto. Qed.

Lemma count_calls_single (s s' : string) (args : list ptr) (q : version) (b : bool) :
  count_calls s [Eavail q b; Ecall s' args] = if String.eqb s' s then 1%nat else 0%nat.
Proof. unfold count_calls; simpl. destruct (String.eqb s' s); reflexivity. Qed.


(** C3. In a call of a wrapper exactly one entry point runs: the call
    makes one call in all, the calls of the modern and of the legacy
    symbol of the routine add up to one, and the memory handed back is the
    one that this single call left. *)
Theorem C3_exactly_one_entry_point (r : routine) (args : list ptr) (w : world) :
  length args = arity r ->
  exists v w' sym,
    run backend r args w = Some (v, w') /\
    length (calls (added (length (trace w)) (trace w'))) = 1%nat /\
    (count_calls (modern_symbol r) (added (length (trace w)) (trace w')) +
     count_calls (legacy_symbol r) (added (length (trace w)) (trace w')) = 1)%nat /\
    (sym = modern_symbol r \/ sym = legacy_symbol r) /\
    mem w' = fst (backend sym args (mem w)).
Proof.
  intros H. rewrite (run_eq r args w H).
  eexists _, _, (selected r (host_os w)). split; [reflexivity|].
  cbn [trace mem]. rewrite added_app, !count_calls_single.
  split; [reflexivity|].
  unfold selected. pose proof (symbols_differ r) as D.
  destruct (capable (host_os w)).
  - rewrite String.eqb_refl, D. repeat split. left; reflexivity.
  - rewrite String.eqb_refl, String.eqb_sym, D. repeat split. right; reflexivity.
Qed.

(** C4. All wrappers test the host against one and the same version,
    13.3: the availability query that a call of any wrapper makes names
    that version, whatever the routine, so two wrappers on one host get
    the same answer. *)
Theorem C4_one_threshold_for_all (r1 r2 : routine) (args1 args2 : list ptr) (w : world) :
  length args1 = arity r1 ->
  length args2 = arity r2 ->
  exists v1 w1 v2 w2,
    run backend r1 args1 w = Some (v1, w1) /\
    run backend r2 args2 w = Some (v2, w2) /\
    queries (added (length (trace w)) (trace w1)) =
      [(Version 13 3 0, version_leb (Version 13 3 0) (host_os w))] /\
    queries (added (length (trace w)) (trace w2)) =
      queries (added (length (trace w)) (trace w1)).
Proof.
  intros H1 H2. rewrite (run_eq r1 args1 w H1), (run_eq r2 args2 w H2).
  eexists _, _, _, _. split; [reflexivity|]. split; [reflexivity|].
  cbn [trace]. rewrite !added_app. split; reflexivity.
Qed.

(** C5. Which branch a wrapper takes does not depend on its arguments or
    on the memory they point to: two calls of the same wrapper on hosts
    with the same answer of the capability predicate call symbols of the
    same name. *)
Theorem C5_branch_independent_of_arguments
    (r : routine) (args1 args2 : list ptr) (w1 w2 : world) :
  length args1 = arity r ->
  length args2 = arity r ->
  capable (host_os w1) = capable (host_os w2) ->
  exists v1 w1' v2 w2',
    run backend r args1 w1 = Some (v1, w1') /\
    run backend r args2 w2 = Some (v2, w2') /\
    map fst (calls (added (length (trace w1)) (trace w1'))) =
    map fst (calls (added (length (trace w2)) (trace w2'))).
Proof.
  intros H1 H2 E. rewrite (run_eq r args1 w1 H1), (run_eq r args2 w2 H2).
  eexists _, _, _, _. split; [reflexivity|]. split; [reflexivity|].
  cbn [trace]. rewrite !added_app. unfold selected. rewrite E. reflexivity.
Qed.

(** C6. The wrapper adds no failure and no status of its own: a call on
    an argument vector of the right length always completes, and the
    memory the caller gets back is the memory the selected entry point
    left, so the status word read through any pointer [info] is the one
    that entry point wrote (or left) there. *)
Theorem C6_status_is_the_entry_points (r : routine) (args : list ptr) (w : world) :
  length args = arity r ->
  exists v w',
    run backend r args w = Some (v, w') /\
    mem w' = fst (backend (selected r (host_os w)) args (mem w)) /\
    forall info : ptr,
      load_int32 info (mem w') =
      load_int32 info (fst (backend (selected r (host_os w)) args (mem w))).
Proof.
  intros H. rewrite (run_eq r args w H).
  eexists _, _. split; [reflexivity|]. cbn [mem].
  split; [reflexivity | intros info; reflexivity].
Qed.

(** C7. When the availability check answers false the wrapper calls the
    legacy symbol, and only it; and on every host the call resolves to a
    symbol, the legacy one unless the check answers true. *)
Theorem C7_legacy_is_the_fallback (r : routine) (args : list ptr) (w : world) :
  length args = arity r ->
  version_leb threshold (host_os w) = false ->
  (exists v w',
     run backend r args w = Some (v, w') /\
     calls (added (length (trace w)) (trace w')) = [(legacy_symbol r, args)]) /\
  (forall h : version,
     exists v w',
       run backend r args (with_host h w) = Some (v, w') /\
       calls (added (length (trace w)) (trace w')) =
         [(if version_leb threshold h then modern_symbol r else legacy_symbol r, args)]).
Proof.
  intros H E. split.
  - rewrite (run_eq r args w H). eexists _, _. split; [reflexivity|].
    cbn [trace]. rewrite added_app. unfold selected, capable. rewrite E. reflexivity.
  - intros h. rewrite (run_eq r args (with_host h w) H).
    eexists _, _. split; [reflexivity|].
    cbn [trace with_host]. rewrite added_app. reflexivity.
Qed.

(** C8. The wrapper keeps no state and writes nothing itself: a call
    leaves the host version alone, the memory after it is the memory the
    selected entry point left (so it is the caller's memory when the entry
    point writes nothing), the result does not depend on what was called
    before, and a later call asks the capability predicate again, against
    the host as it is then. *)
Theorem C8_no_state_no_writes (r : routine) (args : list ptr) (w : world) :
  length args = arity r ->
  exists v w',
    run backend r args w = Some (v, w') /\
    host_os w' = host_os w /\
    mem w' = fst (backend (selected r (host_os w)) args (mem w)) /\
    (fst (backend (selected r (host_os w)) args (mem w)) = mem w -> mem w' = mem w) /\
    (forall history : list event,
       exists w'',
         run backend r args {| host_os := host_os w; mem := mem w; trace := history |}
           = Some (v, w'') /\
         mem w'' = mem w' /\
         added (length history) (trace w'') = added (length (trace w)) (trace w')) /\
    (forall (h : version) (r2 : routine) (args2 : list ptr),
       length args2 = arity r2 ->
       exists v2 w2,
         run backend r2 args2 (with_host h w') = Some (v2, w2) /\
         added (length (trace w')) (trace w2) =
           [Eavail threshold (version_leb threshold h);
            Ecall (if version_leb threshold h then modern_symbol r2 else legacy_symbol r2)
                  args2]).
Proof.
  intros H. rewrite (run_eq r args w H).
  eexists _, _. split; [reflexivity|]. cbn [host_os mem trace].
  split; [reflexivity|]. split; [reflexivity|]. split; [intros E; exact E|].
  split.
  - intros history.
    rewrite (run_eq r args {| host_os := host_os w; mem := mem w; trace := history |} H).
    eexists. split; [reflexivity|]. cbn [host_os mem trace].
    rewrite !added_app. split; reflexivity.
  - intros h r2 args2 H2.
    rewrite (run_eq r2 args2 _ H2). eexists _, _. split; [reflexivity|].
    cbn [host_os mem trace with_host]. rewrite added_app. reflexivity.
Qed.

(** C9. The wrappers of the four complex dot products are declared
    [void]; their first parameter is the pointer [ret], before [n], [sx],
    [incx], [sy] and [incy]; a call hands no value back to the caller,
    passes [ret] on, in first position, to the selected entry point, and
    leaves the memory as that entry point left it, so what the caller
    finds behind [ret] is what the entry point wrote there. *)
Theorem C9_complex_dot_result_through_ret :
  Forall
    (fun r =>
       ret_type (prototype_of r) = Tvoid /\
       (exists t, hd_error (fn_params (prototype_of r)) = Some (Param t Dstar "ret")) /\
       map p_name (fn_params (prototype_of r)) = ["ret"; "n"; "sx"; "incx"; "sy"; "incy"] /\
       forall (ret n sx incx sy incy : ptr) (w : world),
         exists w',
           run backend r [ret; n; sx; incx; sy; incy] w = Some (None, w') /\
           calls (added (length (trace w)) (trace w')) =
             [(selected r (host_os w), [ret; n; sx; incx; sy; incy])] /\
           mem w' =
             fst (backend (selected r (host_os w)) [ret; n; sx; incx; sy; incy] (mem w)))
    complex_dots.
Proof.
  unfold complex_dots.
  repeat first [apply List.Forall_cons | apply List.Forall_nil];
    (split; [reflexivity|]; split; [eexists; reflexivity|]; split; [reflexivity|]);
    intros ret n sx incx sy incy w;
    rewrite run_eq by reflexivity;
    eexists; (split; [reflexivity|]);
    cbn [trace mem]; rewrite added_app; split; reflexivity.
Qed.

(** C10. Of the QR family the file defines wrappers in double precision
    only: the wrappers of [geqrf], [orgqr] and [ungqr] are those of
    [dgeqrf], [zgeqrf], [dorgqr] and [zungqr], and no function
    [accelerate_sgeqrf], [accelerate_cgeqrf], [accelerate_sorgqr] or
    [accelerate_cungqr] is defined. *)
Theorem C10_qr_family_double_only :
  (forall r : routine, In r all_routines) /\
  List.filter qr_family all_routines = [dgeqrf; zgeqrf; dorgqr; zungqr] /\
  map precision (List.filter qr_family all_routines) = ["d"; "z"; "d"; "z"] /\
  forallb is_exported
    ["accelerate_dgeqrf"; "accelerate_zgeqrf"; "accelerate_dorgqr"; "accelerate_zungqr"]
    = true /\
  existsb is_exported
    ["accelerate_sgeqrf"; "accelerate_cgeqrf"; "accelerate_sorgqr"; "accelerate_cungqr";
     "accelerate_sungqr"; "accelerate_corgqr"]
    = false.
Proof.
  split; [exact all_routines_complete|].
  repeat split; vm_compute; reflexivity.
Qed.

End Properties.

(** ** Runs with the stand-in entry points *)

Import Standin.

(** [accelerate_sgesv] on a host before 13.3: the legacy stand-in runs and
    its status 7 is what the caller reads through [info]. *)
Example sgesv_on_13_2_1 :
  option_map (fun res => (calls (trace (snd res)), load_int32 4504 (mem (snd res))))
    (run sentinel sgesv [4096; 4100; 4104; 4200; 4300; 4400; 4500; 4504] (boot macos_13_2_1))
  = Some ([("sgesv$LEGACY", [4096; 4100; 4104; 4200; 4300; 4400; 4500; 4504])], Some 7).
Proof. vm_compute. reflexivity. Qed.

(** The same call on a host from 13.3 on: the modern stand-in runs and the
    caller reads its status 0. *)
Example sgesv_on_14_0_0 :
  option_map (fun res => (calls (trace (snd res)), load_int32 4504 (mem (snd res))))
    (run sentinel sgesv [4096; 4100; 4104; 4200; 4300; 4400; 4500; 4504] (boot macos_14_0_0))
  = Some ([("sgesv_", [4096; 4100; 4104; 4200; 4300; 4400; 4500; 4504])], Some 0).
Proof. vm_compute. reflexivity. Qed.

(** The threshold itself is on the modern side; a patch release of 13.2 is
    not. *)
Example capable_at_threshold :
  map capable [macos_12_6_3; macos_13_2_1; macos_13_3_0; macos_14_0_0]
  = [false; false; true; true].
Proof. reflexivity. Qed.

(** A vector that is too short is no call of the function. *)
Example sgesv_short_vector : run sentinel sgesv [4096; 4100] (boot macos_14_0_0) = None.
Proof. reflexivity. Qed.

(** C2. The claim is that the caller of a wrapper with a return type
    receives the value that the selected entry point returned.  The code
    does not do that: [accelerate_sdot] is declared [float], its entry
    point [sdot_] returns 32.0 here, and the wrapper, which calls it in an
    expression statement and has no [return], hands no value to its
    caller.  What the entry point wrote into the memory does reach the
    caller ([outputs_pass_through]). *)
Theorem C2_sdot_return_value_is_lost :
  ret_type (prototype_of sdot) = Tfloat /\
  dot32 "sdot_" [16; 32; 48; 64; 80] (mem (boot macos_14_0_0))
    = (mem (boot macos_14_0_0), Some (Vsingle 1107296256)) /\
  option_map (fun res => calls (trace (snd res)))
    (run dot32 sdot [16; 32; 48; 64; 80] (boot macos_14_0_0))
    = Some [("sdot_", [16; 32; 48; 64; 80])] /\
  option_map fst (run dot32 sdot [16; 32; 48; 64; 80] (boot macos_14_0_0))
    = Some None.
Proof. repeat split; vm_compute; reflexivity. Qed.

(** ** The properties at concrete calls *)


Lemma C3_exactly_one_entry_point_witness :
  length [16; 32; 48; 64; 80; 96] = arity zgetrf /\
  exists v w' sym,
    run sentinel zgetrf [16; 32; 48; 64; 80; 96] (boot macos_14_0_0) = Some (v, w') /\
    length (calls (added 0 (trace w'))) = 1%nat /\
    (count_calls "zgetrf_" (added 0 (trace w')) +
     count_calls "zgetrf$LEGACY" (added 0 (trace w')) = 1)%nat /\
    (sym = "zgetrf_" \/ sym = "zgetrf$LEGACY") /\
    mem w' = fst (sentinel sym [16; 32; 48; 64; 80; 96] ∅).
Proof.
  split; [reflexivity|].
  apply (C3_exactly_one_entry_point sentinel zgetrf [16; 32; 48; 64; 80; 96]
           (boot macos_14_0_0)).
  reflexivity.
Defined.

Lemma C4_one_threshold_for_all_witness :
  length [1; 2; 3; 4; 5] = arity spotrf /\
  length [10; 20; 30; 40; 50; 60; 70; 80; 90; 100; 110; 120; 130] = arity zgemm /\
  exists v1 w1 v2 w2,
    run silent spotrf [1; 2; 3; 4; 5] (boot macos_12_6_3) = Some (v1, w1) /\
    run silent zgemm [10; 20; 30; 40; 50; 60; 70; 80; 90; 100; 110; 120; 130]
      (boot macos_12_6_3) = Some (v2, w2) /\
    queries (added 0 (trace w1)) = [(Version 13 3 0, false)] /\
    queries (added 0 (trace w2)) = queries (added 0 (trace w1)).
Proof.
  split; [reflexivity|]. split; [reflexivity|].
  apply (C4_one_threshold_for_all silent spotrf zgemm [1; 2; 3; 4; 5]
           [10; 20; 30; 40; 50; 60; 70; 80; 90; 100; 110; 120; 130] (boot macos_12_6_3));
    reflexivity.
Defined.

Lemma C5_branch_independent_of_arguments_witness :
  length [16; 32; 48; 64; 80] = arity ddot /\
  length [1024; 2048; 1024; 4096; 1024] = arity ddot /\
  capable macos_13_3_0 = capable macos_14_0_0 /\
  exists v1 w1' v2 w2',
    run dot32 ddot [16; 32; 48; 64; 80] (boot macos_13_3_0) = Some (v1, w1') /\
    run dot32 ddot [1024; 2048; 1024; 4096; 1024]
      {| host_os := macos_14_0_0; mem := <[1024 := 5]> ∅;
         trace := [Ecall "dcopy_" [1; 2; 3; 4; 5]] |}
      = Some (v2, w2') /\
    map fst (calls (added 0 (trace w1'))) = map fst (calls (added 1 (trace w2'))).
Proof.
  split; [reflexivity|]. split; [reflexivity|]. split; [reflexivity|].
  apply (C5_branch_independent_of_arguments dot32 ddot [16; 32; 48; 64; 80]
           [1024; 2048; 1024; 4096; 1024] (boot macos_13_3_0)
           {| host_os := macos_14_0_0; mem := <[1024 := 5]> ∅;
              trace := [Ecall "dcopy_" [1; 2; 3; 4; 5]] |});
    reflexivity.
Defined.

Lemma C6_status_is_the_entry_points_witness :
  length [4096; 4100; 4104; 4200; 4300; 4400; 4500; 4504] = arity dgesv /\
  exists v w',
    run sentinel dgesv [4096; 4100; 4104; 4200; 4300; 4400; 4500; 4504] (boot macos_12_6_3)
      = Some (v, w') /\
    mem w' = fst (sentinel "dgesv$LEGACY"
                    [4096; 4100; 4104; 4200; 4300; 4400; 4500; 4504] ∅) /\
    forall info : ptr,
      load_int32 info (mem w') =
      load_int32 info (fst (sentinel "dgesv$LEGACY"
                              [4096; 4100; 4104; 4200; 4300; 4400; 4500; 4504] ∅)).
Proof.
  split; [reflexivity|].
  apply (C6_status_is_the_entry_points sentinel dgesv
           [4096; 4100; 4104; 4200; 4300; 4400; 4500; 4504] (boot macos_12_6_3)).
  reflexivity.
Defined.

Lemma C7_legacy_is_the_fallback_witness :
  length [1; 2; 3; 4; 5] = arity cpotri /\
  version_leb threshold macos_13_2_1 = false /\
  (exists v w',
     run silent cpotri [1; 2; 3; 4; 5] (boot macos_13_2_1) = Some (v, w') /\
     calls (added 0 (trace w')) = [("cpotri$LEGACY", [1; 2; 3; 4; 5])]) /\
  (forall h : version,
     exists v w',
       run silent cpotri [1; 2; 3; 4; 5] (with_host h (boot macos_13_2_1)) = Some (v, w') /\
       calls (added 0 (trace w')) =
         [(if version_leb threshold h then "cpotri_" else "cpotri$LEGACY", [1; 2; 3; 4; 5])]).
Proof.
  split; [reflexivity|]. split; [reflexivity|].
  apply (C7_legacy_is_the_fallback silent cpotri [1; 2; 3; 4; 5] (boot macos_13_2_1));
    reflexivity.
Defined.

Lemma C8_no_state_no_writes_witness :
  length [16; 32; 48; 64; 80] = arity scopy /\
  exists v w',
    run silent scopy [16; 32; 48; 64; 80] (boot macos_14_0_0) = Some (v, w') /\
    host_os w' = macos_14_0_0 /\
    mem w' = fst (silent "scopy_" [16; 32; 48; 64; 80] ∅) /\
    (fst (silent "scopy_" [16; 32; 48; 64; 80] ∅) = ∅ -> mem w' = ∅) /\
    (forall history : list event,
       exists w'',
         run silent scopy [16; 32; 48; 64; 80]
           {| host_os := macos_14_0_0; mem := ∅; trace := history |} = Some (v, w'') /\
         mem w'' = mem w' /\
         added (length history) (trace w'') = added 0 (trace w')) /\
    (forall (h : version) (r2 : routine) (args2 : list ptr),
       length args2 = arity r2 ->
       exists v2 w2,
         run silent r2 args2 (with_host h w') = Some (v2, w2) /\
         added (length (trace w')) (trace w2) =
           [Eavail threshold (version_leb threshold h);
            Ecall (if version_leb threshold h then modern_symbol r2 else legacy_symbol r2)
                  args2]).
Proof.
  split; [reflexivity|].
  apply (C8_no_state_no_writes silent scopy [16; 32; 48; 64; 80] (boot macos_14_0_0)).
  reflexivity.
Defined.

(** ** Sequences of calls, symbol names and declarations *)

Section Further.

Variable backend : library.

Lemma calls_app (t1 t2 : list event) : calls (t1 ++ t2) = (calls t1 ++ calls t2)%list.
Proof.
  induction t1 as [|[q b|s a] t1 IH]; simpl; [reflexivity | exact IH | now rewrite IH].
Qed.

Lemma queries_app (t1 t2 : list event) : queries (t1 ++ t2) = (queries t1 ++ queries t2)%list.
Proof.
  induction t1 as [|[q b|s a] t1 IH]; simpl; [reflexivity | now rewrite IH | exact IH].
Qed.

(** The events of a sequence of calls on the host [h]. *)
Lemma run_all_eq (prog : list invocation) :
  forall w : world,
    well_formed prog = true ->
    run_all backend prog w =
      Some {| host_os := host_os w;
              mem := effects backend (host_os w) prog (mem w);
              trace := trace w ++
                       List.flat_map
                         (fun c => [Eavail threshold (capable (host_os w));
                                    Ecall (selected (fst c) (host_os w)) (snd c)])
                         prog |}.
Proof.
  induction prog as [|[r args] rest IH]; intros w WF.
  - destruct w as [h m t]. simpl. now rewrite app_nil_r.
  - cbn [well_formed forallb fst snd] in WF.
    apply andb_prop in WF as [Hc Hl]. apply Nat.eqb_eq in Hc.
    cbn [run_all]. rewrite (run_eq backend r args w Hc).
    rewrite (IH _ Hl). cbn [host_os mem trace List.flat_map effects List.fold_left fst snd].
    now rewrite <- app_assoc.
Qed.

(** X1. A sequence of wrapper calls on one host makes one entry point
    call per wrapper call, in the order of the sequence and with the
    arguments of each, and all of them on the same side: every symbol is
    the modern one when the host is capable, every symbol the legacy one
    when it is not.  Each call asks the availability again. *)
Theorem X1_sequence_stays_on_one_side (prog : list invocation) (w : world) :
  well_formed prog = true ->
  exists w',
    run_all backend prog w = Some w' /\
    host_os w' = host_os w /\
    calls (added (length (trace w)) (trace w')) =
      map (fun c => ((if capable (host_os w)
                      then modern_symbol (fst c) else legacy_symbol (fst c)), snd c))
          prog /\
    queries (added (length (trace w)) (trace w')) =
      List.repeat (threshold, capable (host_os w)) (length prog).
Proof.
  intros WF. rewrite (run_all_eq prog w WF). eexists. split; [reflexivity|].
  cbn [host_os trace]. rewrite added_app. split; [reflexivity|].
  clear WF. unfold selected.
  induction prog as [|c rest [IHc IHq]]; [split; reflexivity|].
  cbn [List.flat_map]. rewrite calls_app, queries_app. simpl.
  rewrite IHc, IHq. split; reflexivity.
Qed.

(** X2. The memory after a sequence of wrapper calls is the memory that
    the selected entry points produce when applied one after the other to
    the caller's memory; a sequence made of two parts has the effect of
    the first part followed by that of the second. *)
Theorem X2_sequence_composes_effects (prog1 prog2 : list invocation) (w : world) :
  well_formed prog1 = true ->
  well_formed prog2 = true ->
  exists w1 w2,
    run_all backend prog1 w = Some w1 /\
    run_all backend prog2 w1 = Some w2 /\
    run_all backend (prog1 ++ prog2) w = Some w2 /\
    mem w1 = effects backend (host_os w) prog1 (mem w) /\
    mem w2 = effects backend (host_os w) prog2 (effects backend (host_os w) prog1 (mem w)).
Proof.
  intros WF1 WF2.
  assert (WF : well_formed (prog1 ++ prog2) = true)
    by (unfold well_formed in *; rewrite List.forallb_app; apply andb_true_intro; split; assumption).
  rewrite (run_all_eq prog1 w WF1). eexists _, _. split; [reflexivity|].
  rewrite (run_all_eq prog2 _ WF2), (run_all_eq _ w WF).
  cbn [host_os mem trace]. split; [reflexivity|].
  split; [|split; reflexivity].
  unfold effects. rewrite List.fold_left_app, List.flat_map_app, <- app_assoc.
  reflexivity.
Qed.

End Further.

(** ** Symbol names *)

Lemma length_append (s t : string) :
  String.length (s +:+ t) = (String.length s + String.length t)%nat.
Proof. induction s as [|a s IH]; simpl; [reflexivity | now rewrite IH]. Qed.

Lemma append_cancel_r (s : string) :
  forall f g : string, f +:+ s = g +:+ s -> f = g.
Proof.
  induction f as [|a f IH]; intros [|c g] E.
  - reflexivity.
  - apply (f_equal String.length) in E. rewrite !length_append in E. simpl in E. lia.
  - apply (f_equal String.length) in E. rewrite !length_append in E. simpl in E. lia.
  - change (String a (f +:+ s) = String c (g +:+ s)) in E.
    injection E as -> E. f_equal. exact (IH g E).
Qed.

Lemma legacy_never_modern (f g : string) : TEMPLATE_FUNC f <> g +:+ "_".
Proof.
  unfold TEMPLATE_FUNC. revert g.
  induction f as [|a f IH]; intros g E.
  - change ("$LEGACY" = g +:+ "_") in E.
    do 7 (destruct g as [|? g];
          [discriminate E
          | match type of E with
            | _ = String ?c ?g' +:+ ?t => change (String c g' +:+ t) with (String c (g' +:+ t)) in E
            end; injection E as _ E]).
    destruct g; discriminate E.
  - destruct g as [|c g].
    + change (String a (f +:+ "$LEGACY") = "_") in E.
      injection E as _ E. destruct f; discriminate E.
    + change (String a (f +:+ "$LEGACY") = String c (g +:+ "_")) in E.
      injection E as _ E. exact (IH g E).
Qed.

(** The routine that a modern symbol belongs to is found by its name. *)
Lemma find_modern (r : routine) :
  List.find (fun r' => String.eqb (modern_symbol r') (modern_symbol r)) all_routines = Some r.
Proof. destruct r; vm_compute; reflexivity. Qed.

Lemma modern_symbol_inj (r1 r2 : routine) :
  modern_symbol r1 = modern_symbol r2 -> r1 = r2.
Proof.
  intros E. pose proof (find_modern r1) as H1. pose proof (find_modern r2) as H2.
  rewrite E in H1. rewrite H1 in H2. now injection H2.
Qed.

Lemma routine_name_inj (r1 r2 : routine) : routine_name r1 = routine_name r2 -> r1 = r2.
Proof. intros E. apply modern_symbol_inj. unfold modern_symbol. now rewrite E. Qed.

Lemma selected_inj (r1 r2 : routine) (h1 h2 : version) :
  selected r1 h1 = selected r2 h2 -> r1 = r2 /\ capable h1 = capable h2.
Proof.
  unfold selected. destruct (capable h1), (capable h2); intros E.
  - split; [exact (modern_symbol_inj _ _ E) | reflexivity].
  - exfalso. exact (legacy_never_modern _ _ (eq_sym E)).
  - exfalso. exact (legacy_never_modern _ _ E).
  - split; [|reflexivity]. apply routine_name_inj.
    exact (append_cancel_r _ _ _ E).
Qed.

(** X3. The entry point that a call reaches tells which wrapper was
    called and on which side of the threshold: two calls, of any wrappers
    with any arguments on any hosts, that reach a symbol of the same name
    are calls of the same wrapper on hosts with the same answer of the
    capability predicate.  No entry point is shared by two wrappers. *)
Theorem X3_symbol_identifies_wrapper_and_branch
    (backend : library) (r1 r2 : routine) (args1 args2 : list ptr) (w1 w2 : world) :
  length args1 = arity r1 ->
  length args2 = arity r2 ->
  exists v1 w1' v2 w2',
    run backend r1 args1 w1 = Some (v1, w1') /\
    run backend r2 args2 w2 = Some (v2, w2') /\
    (map fst (calls (added (length (trace w1)) (trace w1'))) =
     map fst (calls (added (length (trace w2)) (trace w2'))) ->
     r1 = r2 /\ capable (host_os w1) = capable (host_os w2)).
Proof.
  intros H1 H2. rewrite (run_eq backend r1 args1 w1 H1), (run_eq backend r2 args2 w2 H2).
  eexists _, _, _, _. split; [reflexivity|]. split; [reflexivity|].
  cbn [trace]. rewrite !added_app. simpl. intros E.
  injection E as E. exact (selected_inj _ _ _ _ E).
Qed.

(** X4. The macro [__TEMPLATE_FUNC] of accelerate_legacy.h gives different
    functions different legacy names. *)
Theorem X4_template_func_injective (f g : string) :
  TEMPLATE_FUNC f = TEMPLATE_FUNC g -> f = g.
Proof. exact (append_cancel_r _ f g). Qed.

(** X5. A legacy name made by [__TEMPLATE_FUNC] is never a modern name:
    whatever the two function names, the name with the suffix [$LEGACY]
    differs from the name with the suffix [_], and it is seven characters
    longer than the function's own name. *)
Theorem X5_legacy_names_apart_from_modern (f g : string) :
  TEMPLATE_FUNC f <> g +:+ "_" /\
  TEMPLATE_FUNC f <> f /\
  String.length (TEMPLATE_FUNC f) = (String.length f + 7)%nat.
Proof.
  split; [exact (legacy_never_modern f g)|].
  assert (L : String.length (TEMPLATE_FUNC f) = (String.length f + 7)%nat)
    by (unfold TEMPLATE_FUNC; now rewrite length_append).
  split; [|exact L].
  intros E. rewrite E in L. lia.
Qed.

(** ** The threshold *)

(** X6. With the availability check read as the comparison of versions, a
    wrapper calls its modern symbol exactly on the hosts whose major
    version is above 13, or is 13 with a minor version of at least 3; the
    patch level of the host plays no part. *)
Theorem X6_modern_from_13_3_on
    (backend : library) (r : routine) (args : list ptr) (w : world) :
  length args = arity r ->
  exists v w',
    run backend r args w = Some (v, w') /\
    (calls (added (length (trace w)) (trace w')) = [(modern_symbol r, args)] <->
     (13 < major (host_os w) \/ (major (host_os w) = 13 /\ 3 <= minor (host_os w)))%N).
Proof.
  intros H. rewrite (run_eq backend r args w H).
  eexists _, _. split; [reflexivity|].
  cbn [trace]. rewrite added_app. simpl.
  assert (C : capable (host_os w) = true <->
              (13 < major (host_os w) \/ (major (host_os w) = 13 /\ 3 <= minor (host_os w)))%N).
  { unfold capable, version_leb, threshold, macos. cbn [major minor patch].
    destruct (N.compare_spec 13 (major (host_os w))) as [E|E|E].
    - destruct (N.compare_spec 3 (minor (host_os w))) as [F|F|F].
      + split; [intros _; right; lia | intros _; now apply N.leb_le, N.le_0_l].
      + split; [intros _; right; lia | reflexivity].
      + split; [discriminate | lia].
    - split; [intros _; left; exact E | reflexivity].
    - split; [discriminate | lia]. }
  rewrite <- C. unfold selected.
  destruct (capable (host_os w)).
  - split; reflexivity.
  - split; [|discriminate]. intros E. injection E as E.
    exfalso. exact (legacy_never_modern _ _ E).
Qed.

(** ** The two entry points of a routine *)

(** X7. A call depends on the library only through the entry point it
    selects: two libraries that do the same at the selected symbol give the
    same result, the same memory and the same events, whatever they do at
    the other symbol of the routine and at every other symbol. *)
Theorem X7_other_entry_point_is_irrelevant
    (lib1 lib2 : library) (r : routine) (args : list ptr) (w : world) :
  length args = arity r ->
  lib1 (selected r (host_os w)) args (mem w) = lib2 (selected r (host_os w)) args (mem w) ->
  run lib1 r args w = run lib2 r args w.
Proof.
  intros H E. rewrite (run_eq lib1 r args w H), (run_eq lib2 r args w H), E. reflexivity.
Qed.

(** X8. When the modern and the legacy entry point of a routine do the
    same to the caller's memory, the memory a wrapper call leaves is the
    same on every host, capable or not. *)
Theorem X8_same_memory_on_every_host
    (backend : library) (r : routine) (args : list ptr) (w : world) (h1 h2 : version) :
  length args = arity r ->
  fst (backend (modern_symbol r) args (mem w)) = fst (backend (legacy_symbol r) args (mem w)) ->
  option_map (fun res => mem (snd res)) (run backend r args (with_host h1 w)) =
  option_map (fun res => mem (snd res)) (run backend r args (with_host h2 w)).
Proof.
  intros H E.
  rewrite (run_eq backend r args (with_host h1 w) H), (run_eq backend r args (with_host h2 w) H).
  cbn [option_map snd mem host_os with_host]. unfold selected.
  destruct (capable h1), (capable h2); rewrite ?E; reflexivity.
Qed.

(** X9. The wrappers declared with a return type are exactly [sgetrf],
    [dgetrf], [cgetrf], [zgetrf], [scopy], [dcopy], [ccopy], [zcopy],
    [sdot] and [ddot], and none of them hands the value of its entry point
    to the caller: whatever value the selected entry point returns, the
    wrapper reaches its closing brace without a [return]. *)
Theorem X9_no_wrapper_returns_the_entry_points_value
    (backend : library) (r : routine) (args : list ptr) (w : world) (v : value) :
  returns_value r = true ->
  length args = arity r ->
  snd (backend (selected r (host_os w)) args (mem w)) = Some v ->
  List.filter returns_value all_routines =
    [sgetrf; dgetrf; cgetrf; zgetrf; scopy; dcopy; ccopy; zcopy; sdot; ddot] /\
  (forall r' : routine,
     returns_value r' = true <->
     In r' [sgetrf; dgetrf; cgetrf; zgetrf; scopy; dcopy; ccopy; zcopy; sdot; ddot]) /\
  In r [sgetrf; dgetrf; cgetrf; zgetrf; scopy; dcopy; ccopy; zcopy; sdot; ddot] /\
  option_map fst (run backend r args w) = Some None.
Proof.
  intros R H _.
  assert (I : forall r' : routine,
             returns_value r' = true <->
             In r' [sgetrf; dgetrf; cgetrf; zgetrf; scopy; dcopy; ccopy; zcopy; sdot; ddot]).
  { intros r'. rewrite <- wrappers_with_return_type, List.filter_In.
    split; [intros R'; split; [apply all_routines_complete | exact R'] | intros [_ R']; exact R']. }
  split; [exact wrappers_with_return_type|].
  split; [exact I|].
  split; [apply I; exact R|].
  rewrite (run_eq backend r args w H). reflexivity.
Qed.

(** ** Declarations *)

(** X10. The status output [info] of a wrapper, when it has one, is its
    last parameter and is declared [fortran_int *]; no other parameter has
    that name.  The wrappers without [info] are those of the BLAS
    routines copy, dot, dotu, dotc and gemm. *)
Theorem X10_info_is_the_last_parameter (r : routine) :
  has_info r = true ->
  List.last (fn_params (prototype_of r)) (Param Tvoid Dstar "") =
    Param Tfortran_int Dstar "info" /\
  length (List.filter (fun p => String.eqb (p_name p) "info") (fn_params (prototype_of r)))
    = 1%nat /\
  List.filter (fun r' => negb (has_info r')) all_routines =
    [scopy; dcopy; ccopy; zcopy; sdot; ddot; cdotu; zdotu; cdotc; zdotc;
     sgemm; dgemm; cgemm; zgemm].
Proof.
  intros H. split; [|split; [|reflexivity]];
    destruct r; (reflexivity || discriminate H).
Qed.

(** X11. The declarations follow the precision letter of the routine: a
    wrapper of an [s] routine has only [char], [fortran_int] and [float]
    parameters, one of a [d] routine [double] in place of [float], one of
    a [c] routine [float] and [f2c_complex], one of a [z] routine [double]
    and a double complex type; a return type other than [void] fits the
    precision in the same way.  No wrapper mixes single and double
    precision. *)
Theorem X11_parameter_types_fit_precision (r : routine) :
  existsb (String.eqb (precision r)) ["s"; "d"; "c"; "z"] = true /\
  forallb (fun p => type_fits (precision r) (p_type p)) (fn_params (prototype_of r)) = true /\
  (ctype_eqb (ret_type (prototype_of r)) Tvoid ||
   type_fits (precision r) (ret_type (prototype_of r))) = true.
Proof. destruct r; repeat split; reflexivity. Qed.

Lemma fn_name_prefix (r : routine) :
  fn_name (prototype_of r) = "accelerate_" +:+ routine_name r.
Proof. destruct r; reflexivity. Qed.

(** X12. Every function of the file is named [accelerate_] followed by
    the name of a routine, and it is the entry points of that routine that
    a call of the function reaches: the name followed by [_] on a capable
    host, the name followed by [$LEGACY] otherwise.  No two of the 54
    functions have the same name. *)
Theorem X12_wrapper_names_are_distinct
    (backend : library) (r1 r2 : routine) (args : list ptr) (w : world) :
  fn_name (prototype_of r1) = fn_name (prototype_of r2) ->
  length args = arity r1 ->
  r1 = r2 /\
  length exported = 54%nat /\
  exists name v w',
    fn_name (prototype_of r1) = "accelerate_" +:+ name /\
    run backend r1 args w = Some (v, w') /\
    calls (added (length (trace w)) (trace w')) =
      [(if version_leb (Version 13 3 0) (host_os w)
        then name +:+ "_" else name +:+ "$LEGACY", args)].
Proof.
  intros E H. split; [|split; [reflexivity|]].
  - rewrite !fn_name_prefix in E.
    change ("accelerate_" +:+ routine_name r1)
      with (String "a" (String "c" (String "c" (String "e" (String "l" (String "e"
           (String "r" (String "a" (String "t" (String "e" (String "_"
           (routine_name r1)))))))))))) in E.
    change ("accelerate_" +:+ routine_name r2)
      with (String "a" (String "c" (String "c" (String "e" (String "l" (String "e"
           (String "r" (String "a" (String "t" (String "e" (String "_"
           (routine_name r2)))))))))))) in E.
    injection E as E. exact (routine_name_inj r1 r2 E).
  - exists (routine_name r1). rewrite (run_eq backend r1 args w H).
    eexists _, _. split; [apply fn_name_prefix|]. split; [reflexivity|].
    cbn [trace]. rewrite added_app. reflexivity.
Qed.

(** ** The further properties at concrete calls *)

Lemma X1_sequence_stays_on_one_side_witness :
  well_formed [(dpotrf, [4096; 4100; 8192; 4104; 4108]);
               (dpotrs, [4096; 4100; 4112; 8192; 4104; 12288; 4116; 4108])] = true /\
  exists w',
    run_all sentinel
      [(dpotrf, [4096; 4100; 8192; 4104; 4108]);
       (dpotrs, [4096; 4100; 4112; 8192; 4104; 12288; 4116; 4108])]
      (boot macos_13_2_1) = Some w' /\
    host_os w' = macos_13_2_1 /\
    calls (added 0 (trace w')) =
      [("dpotrf$LEGACY", [4096; 4100; 8192; 4104; 4108]);
       ("dpotrs$LEGACY", [4096; 4100; 4112; 8192; 4104; 12288; 4116; 4108])] /\
    queries (added 0 (trace w')) = [(threshold, false); (threshold, false)].
Proof.
  split; [reflexivity|].
  apply (X1_sequence_stays_on_one_side sentinel
           [(dpotrf, [4096; 4100; 8192; 4104; 4108]);
            (dpotrs, [4096; 4100; 4112; 8192; 4104; 12288; 4116; 4108])]
           (boot macos_13_2_1)).
  reflexivity.
Defined.

Lemma X2_sequence_composes_effects_witness :
  well_formed [(dpotrf, [4096; 4100; 8192; 4104; 4108])] = true /\
  well_formed [(dpotrs, [4096; 4100; 4112; 8192; 4104; 12288; 4116; 4120])] = true /\
  exists w1 w2,
    run_all sentinel [(dpotrf, [4096; 4100; 8192; 4104; 4108])] (boot macos_14_0_0)
      = Some w1 /\
    run_all sentinel [(dpotrs, [4096; 4100; 4112; 8192; 4104; 12288; 4116; 4120])] w1
      = Some w2 /\
    run_all sentinel
      [(dpotrf, [4096; 4100; 8192; 4104; 4108]);
       (dpotrs, [4096; 4100; 4112; 8192; 4104; 12288; 4116; 4120])]
      (boot macos_14_0_0) = Some w2 /\
    mem w1 = store_int32 4108 0 ∅ /\
    mem w2 = store_int32 4120 0 (store_int32 4108 0 ∅).
Proof.
  split; [reflexivity|]. split; [reflexivity|].
  apply (X2_sequence_composes_effects sentinel
           [(dpotrf, [4096; 4100; 8192; 4104; 4108])]
           [(dpotrs, [4096; 4100; 4112; 8192; 4104; 12288; 4116; 4120])]
           (boot macos_14_0_0));
    reflexivity.
Defined.

Lemma X3_symbol_identifies_wrapper_and_branch_witness :
  length [1; 2; 3; 4; 5] = arity cpotrf /\
  length [6; 7; 8; 9; 10] = arity cpotri /\
  exists v1 w1' v2 w2',
    run silent cpotrf [1; 2; 3; 4; 5] (boot macos_13_2_1) = Some (v1, w1') /\
    run silent cpotri [6; 7; 8; 9; 10] (boot macos_14_0_0) = Some (v2, w2') /\
    (map fst (calls (added 0 (trace w1'))) = map fst (calls (added 0 (trace w2'))) ->
     cpotrf = cpotri /\ capable macos_13_2_1 = capable macos_14_0_0).
Proof.
  split; [reflexivity|]. split; [reflexivity|].
  apply (X3_symbol_identifies_wrapper_and_branch silent cpotrf cpotri
           [1; 2; 3; 4; 5] [6; 7; 8; 9; 10] (boot macos_13_2_1) (boot macos_14_0_0));
    reflexivity.
Defined.

Lemma X4_template_func_injective_witness :
  TEMPLATE_FUNC "sgeev" = "sgeev$LEGACY" /\ "sgeev" = "sgeev".
Proof.
  split; [reflexivity|].
  apply (X4_template_func_injective "sgeev" "sgeev"). reflexivity.
Defined.

Lemma X6_modern_from_13_3_on_witness :
  length [16; 32; 48; 64; 80; 96] = arity sgetrf /\
  exists v w',
    run sentinel sgetrf [16; 32; 48; 64; 80; 96] (boot (Version 13 3 1)) = Some (v, w') /\
    (calls (added 0 (trace w')) = [("sgetrf_", [16; 32; 48; 64; 80; 96])] <->
     (13 < 13 \/ (13 = 13 /\ 3 <= 3))%N).
Proof.
  split; [reflexivity|].
  apply (X6_modern_from_13_3_on sentinel sgetrf [16; 32; 48; 64; 80; 96]
           (boot (Version 13 3 1))).
  reflexivity.
Defined.

Lemma X7_other_entry_point_is_irrelevant_witness :
  length [4096; 4100; 4104; 4200; 4300; 4400; 4500; 4504] = arity sgesv /\
  run sentinel sgesv [4096; 4100; 4104; 4200; 4300; 4400; 4500; 4504] (boot macos_14_0_0) =
  run (fun sym args m => if is_legacy sym then silent sym args m else sentinel sym args m)
    sgesv [4096; 4100; 4104; 4200; 4300; 4400; 4500; 4504] (boot macos_14_0_0).
Proof.
  split; [reflexivity|].
  apply (X7_other_entry_point_is_irrelevant sentinel
           (fun sym args m => if is_legacy sym then silent sym args m else sentinel sym args m)
           sgesv [4096; 4100; 4104; 4200; 4300; 4400; 4500; 4504] (boot macos_14_0_0));
    reflexivity.
Defined.

Lemma X8_same_memory_on_every_host_witness :
  length [10; 20; 30; 40; 50; 60; 70; 80; 90; 100; 110; 120; 130] = arity dgemm /\
  option_map (fun res => mem (snd res))
    (run silent dgemm [10; 20; 30; 40; 50; 60; 70; 80; 90; 100; 110; 120; 130]
       (with_host macos_13_2_1 (boot macos_12_6_3))) =
  option_map (fun res => mem (snd res))
    (run silent dgemm [10; 20; 30; 40; 50; 60; 70; 80; 90; 100; 110; 120; 130]
       (with_host macos_14_0_0 (boot macos_12_6_3))).
Proof.
  split; [reflexivity|].
  apply (X8_same_memory_on_every_host silent dgemm
           [10; 20; 30; 40; 50; 60; 70; 80; 90; 100; 110; 120; 130]
           (boot macos_12_6_3) macos_13_2_1 macos_14_0_0);
    reflexivity.
Defined.

Lemma X9_no_wrapper_returns_the_entry_points_value_witness :
  returns_value sdot = true /\
  snd (dot32 "sdot$LEGACY" [16; 32; 48; 64; 80] ∅) = Some (Vsingle 1107296256) /\
  List.filter returns_value all_routines =
    [sgetrf; dgetrf; cgetrf; zgetrf; scopy; dcopy; ccopy; zcopy; sdot; ddot] /\
  (forall r' : routine,
     returns_value r' = true <->
     In r' [sgetrf; dgetrf; cgetrf; zgetrf; scopy; dcopy; ccopy; zcopy; sdot; ddot]) /\
  In sdot [sgetrf; dgetrf; cgetrf; zgetrf; scopy; dcopy; ccopy; zcopy; sdot; ddot] /\
  option_map fst (run dot32 sdot [16; 32; 48; 64; 80] (boot macos_12_6_3)) = Some None.
Proof.
  split; [reflexivity|]. split; [reflexivity|].
  apply (X9_no_wrapper_returns_the_entry_points_value dot32 sdot [16; 32; 48; 64; 80]
           (boot macos_12_6_3) (Vsingle 1107296256));
    reflexivity.
Defined.

Lemma X10_info_is_the_last_parameter_witness :
  has_info zgesdd = true /\
  List.last (fn_params (prototype_of zgesdd)) (Param Tvoid Dstar "") =
    Param Tfortran_int Dstar "info" /\
  length (List.filter (fun p => String.eqb (p_name p) "info") (fn_params (prototype_of zgesdd)))
    = 1%nat /\
  List.filter (fun r' => negb (has_info r')) all_routines =
    [scopy; dcopy; ccopy; zcopy; sdot; ddot; cdotu; zdotu; cdotc; zdotc;
     sgemm; dgemm; cgemm; zgemm].
Proof.
  split; [reflexivity|].
  apply (X10_info_is_the_last_parameter zgesdd). reflexivity.
Defined.

Lemma X12_wrapper_names_are_distinct_witness :
  fn_name (prototype_of ddot) = "accelerate_ddot" /\
  length [16; 32; 48; 64; 80] = arity ddot /\
  ddot = ddot /\
  length exported = 54%nat /\
  exists name v w',
    "accelerate_ddot" = "accelerate_" +:+ name /\
    run silent ddot [16; 32; 48; 64; 80] (boot macos_13_2_1) = Some (v, w') /\
    calls (added 0 (trace w')) =
      [(if false then name +:+ "_" else name +:+ "$LEGACY", [16; 32; 48; 64; 80])].
Proof.
  split; [reflexivity|]. split; [reflexivity|].
  apply (X12_wrapper_names_are_distinct silent ddot ddot [16; 32; 48; 64; 80]
           (boot macos_13_2_1));
    reflexivity.
Defined.
